(** * variable_connection_plugin: CreateConnectionsFromVariable

    A shallow embedding of [operator/variable_connection_operator.py].

    The operator reads one Airflow connection (holding a Fernet key in its
    password column) and one JSON Airflow variable (a mapping from a config
    key to an organisation config), and for every organisation config that
    passes its checks it decrypts the token and replaces the Airflow
    connection named after the organisation.

    Python objects coming out of [json.loads] are modelled by [value];
    the Airflow metadata database by [world] (the connection table, the
    variable table and a trace of the calls the operator makes to its
    collaborators); exceptions by [result]; the operator's methods by
    functions in the monad [M] that threads the world and stops at the
    first exception.  Code that belongs to Airflow, SQLAlchemy,
    cryptography or the Python runtime is not part of the plugin: what the
    operator needs of it is bundled in [Platform]. *)

From Stdlib Require Import String Ascii List ZArith Bool Lia DecimalString.
Import ListNotations.
Local Open Scope list_scope.
Local Open Scope string_scope.

(** ** Python values *)

#[local] Set Warnings "-register-all".

(** What [json.loads] can return.  A float is only ever formatted by the
    operator, so it is carried as the text Python's [repr] gives it. *)
Inductive value : Type :=
| VNone
| VBool (b : bool)
| VInt (n : Z)
| VFloat (repr : string)
| VStr (s : string)
| VList (items : list value)
| VDict (items : list (string * value)).

(** A Python [dict] with string keys, in insertion order.  The keys of a
    Python dict are distinct; [dict_lookup] takes the first binding. *)
Definition dict : Type := list (string * value).

Fixpoint dict_lookup (d : dict) (k : string) : option value :=
  match d with
  | [] => None
  | (k', v) :: d' => if k' =? k then Some v else dict_lookup d' k
  end.

(** [d.get(k, default)] *)
Definition dict_get (d : dict) (k : string) (default : value) : value :=
  match dict_lookup d k with
  | Some v => v
  | None => default
  end.

(** [v is False] *)
Definition is_False (v : value) : bool :=
  match v with
  | VBool false => true
  | _ => false
  end.

(** [v == s] for a [str] literal [s]: only an equal [str] compares equal. *)
Definition eq_str (v : value) (s : string) : bool :=
  match v with
  | VStr s' => s' =? s
  | _ => false
  end.

(** [v in t] for a tuple [t] of [str] literals. *)
Definition in_strs (v : value) (t : list string) : bool :=
  existsb (eq_str v) t.

(** [isinstance(v, str)] *)
Definition isinstance_str (v : value) : bool :=
  match v with
  | VStr _ => true
  | _ => false
  end.

(** ** Exceptions *)

Inductive exn : Type :=
| AirflowException      (* BaseHook.get_connection: the conn_id isn't defined *)
| KeyError
| AttributeError        (* [.get] on an object that is not a dict *)
| TypeError
| ValueError
| InvalidToken          (* cryptography.fernet *)
| UnicodeEncodeError
| UnicodeDecodeError
| SQLAlchemyError.

Inductive result (A : Type) : Type :=
| Ok (a : A)
| Raise (e : exn).
Arguments Ok {A} a.
Arguments Raise {A} e.

(** ** The Airflow metadata database *)

(** A row of Airflow's [connection] table, with the columns the operator
    reads or writes. *)
Record Connection : Type := mkConnection {
  conn_id : string;
  conn_type : string;
  host : string;
  password : option string;
  extra : string
}.

(** Calls the operator makes to its collaborators, in the order made. *)
Inductive event : Type :=
| EvGetConnection (id : option string)
| EvVariableGet (key : string)
| EvDecrypt (fernet_key : option string) (encrypted_str : string)
| EvMerge (connection : Connection).

(** The rows of the [connection] table in the order they were added, the
    [variable] table with each JSON object as [json.loads] reads it, and
    the calls made so far. *)
Record world : Type := mkWorld {
  connection_table : list Connection;
  variable_table : list (string * dict);
  trace : list event
}.

Definition log (ev : event) (w : world) : world :=
  mkWorld (connection_table w) (variable_table w) (trace w ++ [ev])%list.

Definition set_connection_table (t : list Connection) (w : world) : world :=
  mkWorld t (variable_table w) (trace w).

(** ** The monad of operator code: world passing, stopping at an exception *)

Definition M (A : Type) : Type := world -> result A * world.

Definition ret {A} (a : A) : M A := fun w => (Ok a, w).

Definition bind {A B} (m : M A) (k : A -> M B) : M B :=
  fun w =>
    match m w with
    | (Ok a, w') => k a w'
    | (Raise e, w') => (Raise e, w')
    end.

(** A call to a pure collaborator, recorded in the trace. *)
Definition call {A} (ev : event) (r : result A) : M A :=
  fun w => (r, log ev w).

Definition lift {A} (r : result A) : M A := fun w => (r, w).

Declare Scope py_scope.
Delimit Scope py_scope with py.
Notation "x <- m ;; k" := (bind m (fun x => k))
  (at level 100, m at next level, right associativity) : py_scope.
Notation "m ;; k" := (bind m (fun _ => k))
  (at level 100, right associativity) : py_scope.
Local Open Scope py_scope.

(** [for x in l: body(x)], where [continue] is [ret tt] *)
Fixpoint for_each {A} (body : A -> M unit) (l : list A) : M unit :=
  match l with
  | [] => ret tt
  | x :: l' => body x ;; for_each body l'
  end.

(** ** What the operator needs of its platform *)

Record Platform : Type := mkPlatform {
  (** [cryptography.fernet]: the [Fernet] object, its constructor (which
      rejects an unusable key) and [Fernet.decrypt] *)
  fernet : Type;
  Fernet : option string -> result fernet;
  fernet_decrypt : fernet -> list Byte.byte -> result (list Byte.byte);
  (** [str.encode] and [bytes.decode] *)
  str_encode : string -> result (list Byte.byte);
  bytes_decode : list Byte.byte -> result string;
  (** [repr] of a [str] *)
  str_repr : string -> string;
  (** [BaseHook.get_connection(conn_id)] on a connection table: the
      connection Airflow resolves the name to, or the exception it raises
      when the name is not defined *)
  BaseHook_get_connection :
    list Connection -> option string -> result Connection;
  (** [session.commit()]: whether the database accepts the transaction
      that takes the connection table from its first argument to its
      second *)
  session_commit : list Connection -> list Connection -> result unit
}.

(** ** The operator *)

Section Operator.

Context (P : Platform).

(** [repr(v)] *)
Fixpoint py_repr (v : value) : string :=
  match v with
  | VNone => "None"
  | VBool true => "True"
  | VBool false => "False"
  | VInt n => NilZero.string_of_int (Z.to_int n)
  | VFloat r => r
  | VStr s => str_repr P s
  | VList l => "[" ++ String.concat ", " (map py_repr l) ++ "]"
  | VDict d =>
      "{" ++ String.concat ", "
               (map (fun '(k, x) => str_repr P k ++ ": " ++ py_repr x) d)
          ++ "}"
  end.

(** [str(v)], which is also what ['{0}'.format(v)] inserts *)
Definition py_str (v : value) : string :=
  match v with
  | VStr s => s
  | _ => py_repr v
  end.

(** The attributes [__init__] keeps. *)
Record operator : Type := mkOperator {
  fernet_key_conn_id : option string;
  config_variable_key : string
}.

(** [__init__(self, config_variable_key, fernet_key_conn_id=None,
    is_encrypted=True)]: the third argument is not stored. *)
Definition init (config_variable_key : string)
    (fernet_key_conn_id : option string) (is_encrypted : bool) : operator :=
  mkOperator fernet_key_conn_id config_variable_key.

(** [decrypt_str(self, fernet_key, encrypted_str)] *)
Definition decrypt_str (fernet_key : option string) (encrypted_str : string)
    : result string :=
  match Fernet P fernet_key with
  | Raise e => Raise e
  | Ok f =>
      match str_encode P encrypted_str with
      | Raise e => Raise e
      | Ok encrypted_bytes =>
          match fernet_decrypt P f encrypted_bytes with
          | Raise e => Raise e
          | Ok msg => bytes_decode P msg
          end
      end
  end.

(** [session.query(Connection).filter(Connection.conn_id == id).delete()] *)
Definition delete_where (id : string) (t : list Connection)
    : list Connection :=
  filter (fun c => negb (conn_id c =? id)) t.

(** The two statements of [merge_connection] before its commit: delete
    the rows named like [connection], then [session.add(connection)]. *)
Definition upsert (connection : Connection) (t : list Connection)
    : list Connection :=
  (delete_where (conn_id connection) t ++ [connection])%list.

(** [merge_connection(self, connection)], under [@provide_session]: the
    session deletes, adds and commits; when the commit raises, the session
    is rolled back and the exception is raised again. *)
Definition merge_connection (connection : Connection) : M unit :=
  fun w =>
    let w := log (EvMerge connection) w in
    let session := upsert connection (connection_table w) in
    match session_commit P (connection_table w) session with
    | Ok _ => (Ok tt, set_connection_table session w)
    | Raise e => (Raise e, w)
    end.

(** The call [BaseHook.get_connection(conn_id)] *)
Definition get_connection (id : option string) : M Connection :=
  fun w =>
    (BaseHook_get_connection P (connection_table w) id,
     log (EvGetConnection id) w).

(** [Variable.get(key, default_var=..., deserialize_json=True)]: the
    first variable of that name, parsed, or the default *)
Definition Variable_get (key : string) (default_var : dict) : M dict :=
  fun w =>
    let found :=
      find (fun kv => fst kv =? key) (variable_table w) in
    (Ok match found with
        | Some kv => snd kv
        | None => default_var
        end,
     log (EvVariableGet key) w).

(** [dag_config_var[config_key]] *)
Definition getitem (d : dict) (k : string) : result value :=
  match dict_lookup d k with
  | Some v => Ok v
  | None => Raise KeyError
  end.

(** The attribute [org_config.get]: only a dict has it. *)
Definition get_method (v : value) : result dict :=
  match v with
  | VDict d => Ok d
  | _ => Raise AttributeError
  end.

(** The JSON text [{"auth_type": "direct"}] *)
Definition extra_direct : string :=
  let q := String (ascii_of_nat 34) EmptyString in
  "{" ++ q ++ "auth_type" ++ q ++ ": " ++ q ++ "direct" ++ q ++ "}".

Definition _enabled_types : list string :=
  ["GOOGLE_ANALYTICS"; "HUBSPOT"; "SALESFORCE"].

(** The [if]/[elif] chain of [execute] that sets the connection prefix,
    and with it the instance url (replaced for HUBSPOT). *)
Definition conn_prefix_and_url (_type : value) (_instance_url : string)
    : string * string :=
  if eq_str _type "SALESFORCE" then ("sf", _instance_url)
  else if eq_str _type "HUBSPOT" then ("hs", "https://api.hubapi.com/")
  else if eq_str _type "GOOGLE_ANALYTICS" then ("ga", _instance_url)
  else ("", _instance_url).

(** The body of the loop of [execute], for one [config_key]. *)
Definition execute_body (secret_key_conn : Connection) (dag_config_var : dict)
    (config_key : string) : M unit :=
  org_config <- lift (getitem dag_config_var config_key) ;;
  org_config <- lift (get_method org_config) ;;
  let _is_enabled := dict_get org_config "is_enabled" (VBool false) in
  let _organization_name := dict_get org_config "organization" VNone in
  let _type := dict_get org_config "type" VNone in
  let _token := dict_get org_config "token" VNone in
  let _instance_url := dict_get org_config "instance_url" VNone in
  if is_False _is_enabled then ret tt else
  if negb (in_strs _type _enabled_types) then ret tt else
  match _token with
  | VStr _token =>
      match _instance_url with
      | VStr _instance_url =>
          access_token <-
            call (EvDecrypt (password secret_key_conn) _token)
                 (decrypt_str (password secret_key_conn) _token) ;;
          let '(conn_prefix, _instance_url) :=
            conn_prefix_and_url _type _instance_url in
          let organization_connection :=
            mkConnection
              (conn_prefix ++ "_" ++ py_str _organization_name)
              "http"
              _instance_url
              (Some access_token)
              extra_direct in
          merge_connection organization_connection
      | _ => ret tt
      end
  | _ => ret tt
  end.

(** [execute(self, context)] *)
Definition execute (self : operator) : M unit :=
  secret_key_conn <- get_connection (fernet_key_conn_id self) ;;
  dag_config_var <- Variable_get (config_variable_key self) [] ;;
  for_each (execute_body secret_key_conn dag_config_var)
           (map fst dag_config_var).

End Operator.

(** ** Vocabulary of the properties *)

(** How many rows of the connection table are named [id]. *)
Definition count_id (id : string) (t : list Connection) : nat :=
  length (filter (fun c => conn_id c =? id) t).

(** New events of a computation are all of one kind. *)
Definition entry_event (ev : event) : Prop :=
  match ev with
  | EvDecrypt _ _ | EvMerge _ => True
  | _ => False
  end.


(** The checks of [execute] that an organisation config passes before its
    token is decrypted. *)
Definition accepted (org_config : dict) : bool :=
  negb (is_False (dict_get org_config "is_enabled" (VBool false)))
  && in_strs (dict_get org_config "type" VNone) _enabled_types
  && isinstance_str (dict_get org_config "token" VNone)
  && isinstance_str (dict_get org_config "instance_url" VNone).

(** A sequence of runs of the operator, each with the operator instance
    and the variable table of its time; the connection table and the trace
    are carried from run to run, whether a run raised or not. *)
Fixpoint run_sequence (P : Platform)
    (runs : list (operator * list (string * dict))) (w : world) : world :=
  match runs with
  | [] => w
  | (op, vars) :: rest =>
      run_sequence P rest
        (snd (execute P op (mkWorld (connection_table w) vars (trace w))))
  end.

(** A property of the connection table that no [upsert] breaks. *)
Definition upsert_closed (I : list Connection -> Prop) : Prop :=
  forall c t, I t -> I (upsert c t).

(** [w'] is [w] after some calls: same variables, the trace longer by
    events that satisfy [ok]. *)
Definition extends_trace (ok : event -> Prop) (w w' : world) : Prop :=
  variable_table w' = variable_table w
  /\ exists evs, trace w' = (trace w ++ evs)%list /\ Forall ok evs.

(** The record [execute] builds for a config of type [ty] with instance
    url [url], once its token is decrypted to [access_token]. *)
Definition built_record (P : Platform) (org_config : dict)
    (ty url access_token : string) : Connection :=
  mkConnection
    (fst (conn_prefix_and_url (VStr ty) url) ++ "_"
       ++ py_str P (dict_get org_config "organization" VNone))
    "http"
    (snd (conn_prefix_and_url (VStr ty) url))
    (Some access_token)
    extra_direct.

(** The [conn_id] [execute] derives from a config. *)
Definition entry_conn_id (P : Platform) (org_config : dict) : string :=
  fst (conn_prefix_and_url (dict_get org_config "type" VNone) "") ++ "_"
    ++ py_str P (dict_get org_config "organization" VNone).

(** The table after the records [cs] are upserted one after the other. *)
Definition upsert_all (cs : list Connection) (t : list Connection)
    : list Connection :=
  fold_left (fun t c => upsert c t) cs t.

(** The records of the merges of a trace, in order. *)
Definition merged (evs : list event) : list Connection :=
  flat_map (fun ev => match ev with EvMerge c => [c] | _ => [] end) evs.

(** The rows of a table that are named [id]. *)
Definition rows_named (id : string) (t : list Connection)
    : list Connection :=
  filter (fun r => conn_id r =? id) t.

(** Some record of [cs] has the [conn_id] of the row [r]. *)
Definition named_in (cs : list Connection) (r : Connection) : bool :=
  existsb (fun c => conn_id c =? conn_id r) cs.

(** The prefixes [execute] gives to a [conn_id]. *)
Definition conn_prefixes : list string := ["sf"; "hs"; "ga"].

(** What can be said of a record a run merges when its key is [pw]. *)
Definition run_record (P : Platform) (pw : option string) (c : Connection)
    : Prop :=
  conn_type c = "http"
  /\ extra c = extra_direct
  /\ (exists tok access_token,
        decrypt_str P pw tok = Ok access_token
        /\ password c = Some access_token)
  /\ (exists p rest, In p conn_prefixes /\ conn_id c = p ++ "_" ++ rest).

(** What can be said of a call made by the loop of a run whose key is
    [pw]. *)
Definition run_event (P : Platform) (pw : option string) (ev : event)
    : Prop :=
  match ev with
  | EvDecrypt k _ => k = pw
  | EvMerge c => run_record P pw c
  | _ => False
  end.

#[local] Arguments in_strs : simpl never.
#[local] Arguments conn_prefix_and_url : simpl never.

Ltac run_monad := unfold bind, lift, ret, call in *; simpl in *.

(** ** A small platform to run the operator on

    The cipher text of [p] under the key [k] is [k ++ ":" ++ p]; a key is
    usable when there is one; text is bytes; a connection name resolves
    to the first row of that name; the database refuses a [conn_id] of
    more than 250 characters (the width of Airflow's column). *)
Module Demo.

Definition strip_key (k : string) (s : string) : result string :=
  if String.prefix (k ++ ":") s
  then Ok (substring (String.length k + 1)
                     (String.length s - (String.length k + 1)) s)
  else Raise InvalidToken.

Definition lookup (t : list Connection) (id : option string)
    : result Connection :=
  match id with
  | Some i =>
      match find (fun c => conn_id c =? i) t with
      | Some c => Ok c
      | None => Raise AirflowException
      end
  | None => Raise AirflowException
  end.

Definition commit (before after : list Connection) : result unit :=
  if existsb (fun c => 250 <? String.length (conn_id c))%nat after
  then Raise SQLAlchemyError
  else Ok tt.

Definition platform : Platform :=
  {| fernet := string;
     Fernet := fun k =>
       match k with
       | Some k => Ok k
       | None => Raise TypeError
       end;
     fernet_decrypt := fun k b =>
       match strip_key k (string_of_list_byte b) with
       | Ok p => Ok (list_byte_of_string p)
       | Raise e => Raise e
       end;
     str_encode := fun s => Ok (list_byte_of_string s);
     bytes_decode := fun b => Ok (string_of_list_byte b);
     str_repr := fun s => "'" ++ s ++ "'";
     BaseHook_get_connection := lookup;
     session_commit := commit |}.

(** The connection that holds the key. *)
Definition key_conn : Connection :=
  mkConnection "fernet_key" "http" "" (Some "K") "".

Definition op : operator := init "dag_config" (Some "fernet_key") true.

Definition fields (enabled org ty token url : value) : dict :=
  [("is_enabled", enabled); ("organization", org); ("type", ty);
   ("token", token); ("instance_url", url)].

Definition entry (enabled org ty token url : value) : value :=
  VDict (fields enabled org ty token url).

(** The world with the key connection and one variable. *)
Definition world_of (cfg : dict) : world :=
  mkWorld [key_conn] [("dag_config", cfg)] [].

(** The fields of the config of the scenarios. *)
Definition acme_fields (ty url : string) : dict :=
  fields (VBool true) (VStr "acme") (VStr ty) (VStr "K:tok123") (VStr url).

Definition acme (ty url : string) : dict :=
  [("acme", VDict (acme_fields ty url))].

(** A config whose [is_enabled] is the number 1. *)
Definition one_fields : dict :=
  fields (VInt 1) (VStr "acme") (VStr "SALESFORCE") (VStr "K:tok123")
         (VStr "https://acme.example").

(** A config with no [is_enabled]. *)
Definition unflagged_fields : dict :=
  [("organization", VStr "acme"); ("type", VStr "SALESFORCE");
   ("token", VStr "K:tok123"); ("instance_url", VStr "https://acme.example")].

(** A config with no [organization]. *)
Definition anonymous_fields : dict :=
  [("is_enabled", VBool true); ("type", VStr "SALESFORCE");
   ("token", VStr "K:tok123"); ("instance_url", VStr "https://acme.example")].

(** A config whose token was encrypted under another key. *)
Definition stale_fields : dict :=
  fields (VBool true) (VStr "stale") (VStr "HUBSPOT") (VStr "J:tok456")
         (VStr "https://stale.example").

(** A config whose organisation name is 300 characters long. *)
Definition long_name : string :=
  String.concat "" (repeat "x" 300).

Definition long_fields : dict :=
  fields (VBool true) (VStr long_name) (VStr "GOOGLE_ANALYTICS")
         (VStr "K:tok789") (VStr "https://long.example").

Definition beta_fields : dict :=
  fields (VBool true) (VStr "beta") (VStr "GOOGLE_ANALYTICS")
         (VStr "K:tok000") (VStr "https://beta.example").

(** The key connection without a password. *)
Definition empty_key_conn : Connection :=
  mkConnection "fernet_key" "http" "" None "".

(** Three configs, the second with a token under another key. *)
Definition with_stale : dict :=
  [("acme", VDict (acme_fields "SALESFORCE" "https://acme.example"));
   ("stale", VDict stale_fields);
   ("beta", VDict beta_fields)].

(** Three configs, the second with a name too long for the database. *)
Definition with_long : dict :=
  [("acme", VDict (acme_fields "SALESFORCE" "https://acme.example"));
   ("long", VDict long_fields);
   ("beta", VDict beta_fields)].

(** Three configs, the second not a JSON object. *)
Definition with_text : dict :=
  [("acme", VDict (acme_fields "SALESFORCE" "https://acme.example"));
   ("note", VStr "to do");
   ("beta", VDict beta_fields)].

(** Two accepted configs that derive the same [conn_id]. *)
Definition twice_acme : dict :=
  [("first", VDict (acme_fields "SALESFORCE" "https://old.example"));
   ("second", VDict (acme_fields "SALESFORCE" "https://new.example"))].

(** A table with the key connection and a row that is not the operator's. *)
Definition foreign_conn : Connection :=
  mkConnection "postgres_default" "postgres" "db.example" (Some "pw") "".

Definition world_with_foreign (cfg : dict) : world :=
  mkWorld [key_conn; foreign_conn] [("dag_config", cfg)] [].

(** The world after the key and the variable are read. *)
Definition started (cfg : dict) : world :=
  log (EvVariableGet "dag_config")
      (log (EvGetConnection (Some "fernet_key")) (world_of cfg)).

(** The world after the first of the three configs is merged. *)
Definition after_acme (cfg : dict) : world :=
  snd (execute_body platform key_conn cfg "acme" (started cfg)).

End Demo.

(** ** The scenarios of the specification, run on the small platform *)

Example scenario_salesforce :
  execute Demo.platform Demo.op
    (Demo.world_of (Demo.acme "SALESFORCE" "https://acme.my.salesforce.com"))
  = (Ok tt,
     mkWorld
       [Demo.key_conn;
        mkConnection "sf_acme" "http" "https://acme.my.salesforce.com"
                     (Some "tok123") extra_direct]
       [("dag_config",
         Demo.acme "SALESFORCE" "https://acme.my.salesforce.com")]
       [EvGetConnection (Some "fernet_key");
        EvVariableGet "dag_config";
        EvDecrypt (Some "K") "K:tok123";
        EvMerge (mkConnection "sf_acme" "http"
                   "https://acme.my.salesforce.com" (Some "tok123")
                   extra_direct)]).
Proof. vm_compute. reflexivity. Qed.

Example scenario_hubspot :
  connection_table
    (snd (execute Demo.platform Demo.op
            (Demo.world_of (Demo.acme "HUBSPOT" "https://ignored.example"))))
  = [Demo.key_conn;
     mkConnection "hs_acme" "http" "https://api.hubapi.com/" (Some "tok123")
                  extra_direct].
Proof. vm_compute. reflexivity. Qed.

Example scenario_token_is_a_number :
  let w :=
    Demo.world_of
      [("acme", Demo.entry (VBool true) (VStr "acme") (VStr "SALESFORCE")
                           (VInt 42) (VStr "https://acme.example"))] in
  fst (execute Demo.platform Demo.op w) = Ok tt
  /\ connection_table (snd (execute Demo.platform Demo.op w))
     = connection_table w.
Proof. vm_compute. split; reflexivity. Qed.

Example scenario_config_key_absent :
  let w := mkWorld [Demo.key_conn] [] [] in
  fst (execute Demo.platform Demo.op w) = Ok tt
  /\ connection_table (snd (execute Demo.platform Demo.op w))
     = connection_table w.
Proof. vm_compute. split; reflexivity. Qed.

Example py_str_examples :
  py_str Demo.platform VNone = "None"
  /\ py_str Demo.platform (VInt (-12)) = "-12"
  /\ py_str Demo.platform (VBool true) = "True"
  /\ py_str Demo.platform (VStr "acme") = "acme"
  /\ py_str Demo.platform (VList [VInt 1; VStr "a"; VNone]) = "[1, 'a', None]"
  /\ py_str Demo.platform (VDict [("a", VInt 0)]) = "{'a': 0}".
Proof. vm_compute. repeat split; reflexivity. Qed.

(** ** Counting rows by name *)

Lemma count_id_app id t1 t2 :
  count_id id (t1 ++ t2) = count_id id t1 + count_id id t2.
Proof.
  unfold count_id. now rewrite filter_app, length_app.
Qed.

Lemma count_id_delete_where id id' t :
  count_id id (delete_where id' t)
  = if id' =? id then 0 else count_id id t.
Proof.
  unfold count_id, delete_where.
  induction t as [|c t IH]; simpl.
  - now destruct (id' =? id).
  - destruct (String.eqb_spec (conn_id c) id') as [E1|N1]; simpl.
    + rewrite IH. subst id'.
      destruct (String.eqb_spec (conn_id c) id) as [E2|N2]; simpl; auto.
    + destruct (String.eqb_spec (conn_id c) id) as [E2|N2]; simpl;
        rewrite IH; auto.
      subst id. destruct (String.eqb_spec id' (conn_id c)); congruence.
Qed.

Lemma count_id_upsert id c t :
  count_id id (upsert c t)
  = if conn_id c =? id then 1 else count_id id t.
Proof.
  unfold upsert. rewrite count_id_app, count_id_delete_where.
  unfold count_id at 2. simpl.
  destruct (conn_id c =? id); simpl; lia.
Qed.

Lemma count_id_NoDup t :
  NoDup (map conn_id t) <-> forall id, count_id id t <= 1.
Proof.
  induction t as [|c t IH]; simpl.
  - split; intros; [unfold count_id; simpl; lia | constructor].
  - split.
    + intros H id. inversion H as [|? ? Hnin Hnd]; subst.
      unfold count_id. simpl.
      destruct (String.eqb_spec (conn_id c) id) as [E|N]; simpl.
      * subst id.
        assert (Hz : count_id (conn_id c) t = 0).
        { unfold count_id.
          destruct (filter (fun c0 => conn_id c0 =? conn_id c) t)
            as [|x xs] eqn:F; [reflexivity|].
          exfalso. apply Hnin.
          assert (Hx : In x (filter (fun c0 => conn_id c0 =? conn_id c) t))
            by (rewrite F; now left).
          apply filter_In in Hx. destruct Hx as [Hx Hc].
          apply String.eqb_eq in Hc. rewrite <- Hc. now apply in_map. }
        unfold count_id in Hz. rewrite Hz. lia.
      * apply IH. assumption.
    + intros H. constructor.
      * intros Hin. apply in_map_iff in Hin. destruct Hin as [x [Hx Hin]].
        specialize (H (conn_id c)). unfold count_id in H. simpl in H.
        rewrite String.eqb_refl in H. simpl in H.
        assert (Hf : In x (filter (fun c0 => conn_id c0 =? conn_id c) t)).
        { apply filter_In. split; [assumption|]. now apply String.eqb_eq. }
        destruct (filter (fun c0 => conn_id c0 =? conn_id c) t);
          [contradiction | simpl in H; lia].
      * apply IH. intros id. specialize (H id).
        unfold count_id in *. simpl in H.
        destruct (conn_id c =? id); simpl in H; lia.
Qed.

(** ** One pass of the loop body *)

Lemma in_enabled_types (ty : string) :
  in_strs (VStr ty) _enabled_types = true <-> In ty _enabled_types.
Proof.
  unfold in_strs, _enabled_types. simpl.
  rewrite !orb_true_iff, !String.eqb_eq. intuition congruence.
Qed.

Lemma in_strs_VStr v t :
  in_strs v t = true -> exists s, v = VStr s /\ In s t.
Proof.
  unfold in_strs. rewrite existsb_exists. intros [s [Hin He]].
  destruct v; simpl in He; try discriminate.
  apply String.eqb_eq in He. subst. eauto.
Qed.

(** The body on a config that is not accepted: nothing happens. *)
Lemma execute_body_rejected P key cfg k org w :
  getitem cfg k = Ok (VDict org) ->
  accepted org = false ->
  execute_body P key cfg k w = (Ok tt, w).
Proof.
  intros Hitem Hacc. unfold execute_body, accepted in *. run_monad.
  rewrite Hitem. simpl.
  destruct (is_False (dict_get org "is_enabled" (VBool false)));
    [reflexivity|].
  destruct (in_strs (dict_get org "type" VNone) _enabled_types);
    [|reflexivity].
  simpl in Hacc.
  destruct (dict_get org "token" VNone); try reflexivity.
  destruct (dict_get org "instance_url" VNone); try reflexivity.
  discriminate.
Qed.

Section AcceptedEntry.

Context (P : Platform) (secret_key_conn : Connection)
        (dag_config_var : dict) (config_key : string)
        (org_config : dict) (ty tok url : string).

Hypothesis Hitem : getitem dag_config_var config_key = Ok (VDict org_config).
Hypothesis Henabled :
  is_False (dict_get org_config "is_enabled" (VBool false)) = false.
Hypothesis Htype : dict_get org_config "type" VNone = VStr ty.
Hypothesis Hsupported : In ty _enabled_types.
Hypothesis Htoken : dict_get org_config "token" VNone = VStr tok.
Hypothesis Hurl : dict_get org_config "instance_url" VNone = VStr url.

(** The body on an accepted config: decrypt, then merge the record. *)
Lemma execute_body_accepted w :
  execute_body P secret_key_conn dag_config_var config_key w
  = match decrypt_str P (password secret_key_conn) tok with
    | Ok access_token =>
        merge_connection P (built_record P org_config ty url access_token)
          (log (EvDecrypt (password secret_key_conn) tok) w)
    | Raise e => (Raise e, log (EvDecrypt (password secret_key_conn) tok) w)
    end.
Proof.
  unfold execute_body. run_monad. rewrite Hitem. simpl.
  rewrite Henabled, Htype, Htoken, Hurl.
  apply in_enabled_types in Hsupported. rewrite Hsupported. simpl.
  destruct (decrypt_str P (password secret_key_conn) tok); [|reflexivity].
  unfold built_record.
  destruct (conn_prefix_and_url (VStr ty) url). reflexivity.
Qed.

Lemma accepted_true : accepted org_config = true.
Proof.
  unfold accepted. rewrite Henabled, Htype, Htoken, Hurl. simpl.
  apply in_enabled_types in Hsupported. now rewrite Hsupported.
Qed.

End AcceptedEntry.

(** What a config that passes the checks looks like. *)
Lemma accepted_fields org :
  accepted org = true ->
  exists ty tok url,
    is_False (dict_get org "is_enabled" (VBool false)) = false
    /\ dict_get org "type" VNone = VStr ty
    /\ In ty _enabled_types
    /\ dict_get org "token" VNone = VStr tok
    /\ dict_get org "instance_url" VNone = VStr url.
Proof.
  unfold accepted. rewrite !andb_true_iff, negb_true_iff.
  intros [[[He Ht] Hk] Hu].
  apply in_strs_VStr in Ht. destruct Ht as [ty [Ht Hin]].
  destruct (dict_get org "token" VNone) eqn:Ek; try discriminate.
  destruct (dict_get org "instance_url" VNone) eqn:Eu; try discriminate.
  eauto 10.
Qed.

(** The four ways a pass of the body can go. *)
Lemma execute_body_cases P key cfg k w :
  execute_body P key cfg k w = (Ok tt, w)
  \/ (exists e, execute_body P key cfg k w = (Raise e, w))
  \/ (exists tok e,
        execute_body P key cfg k w
        = (Raise e, log (EvDecrypt (password key) tok) w))
  \/ (exists tok c,
        execute_body P key cfg k w
        = merge_connection P c (log (EvDecrypt (password key) tok) w)).
Proof.
  destruct (getitem cfg k) as [v|e] eqn:Hitem.
  2:{ right; left. exists e. unfold execute_body. run_monad.
      now rewrite Hitem. }
  destruct v as [| | | | |l|org].
  1-6: right; left; exists AttributeError; unfold execute_body; run_monad;
       now rewrite Hitem.
  destruct (accepted org) eqn:Hacc.
  - destruct (accepted_fields org Hacc)
      as [ty [tok [url [He [Ht [Hin [Hk Hu]]]]]]].
    rewrite (execute_body_accepted P key cfg k org ty tok url
               Hitem He Ht Hin Hk Hu w).
    destruct (decrypt_str P (password key) tok) as [a|e].
    + right; right; right. eauto.
    + right; right; left. eauto.
  - left. now apply execute_body_rejected with (org := org).
Qed.

(** An accepted config, by its token alone. *)
Lemma execute_body_accepted_token P key cfg k org tok w :
  getitem cfg k = Ok (VDict org) ->
  accepted org = true ->
  dict_get org "token" VNone = VStr tok ->
  exists ty url,
    dict_get org "type" VNone = VStr ty
    /\ In ty _enabled_types
    /\ dict_get org "instance_url" VNone = VStr url
    /\ execute_body P key cfg k w
       = match decrypt_str P (password key) tok with
         | Ok access_token =>
             merge_connection P (built_record P org ty url access_token)
               (log (EvDecrypt (password key) tok) w)
         | Raise e => (Raise e, log (EvDecrypt (password key) tok) w)
         end.
Proof.
  intros Hitem Hacc Htok.
  destruct (accepted_fields org Hacc)
    as [ty [tok' [url [He [Ht [Hin [Hk Hu]]]]]]].
  exists ty, url. repeat split; try assumption.
  assert (tok' = tok) by congruence. subst tok'.
  now apply execute_body_accepted with (org_config := org) (ty := ty)
                                       (url := url).
Qed.

(** ** The loop *)

Lemma for_each_app {A} (body : A -> M unit) l1 l2 w :
  for_each body (l1 ++ l2) w
  = match for_each body l1 w with
    | (Ok _, w1) => for_each body l2 w1
    | (Raise e, w1) => (Raise e, w1)
    end.
Proof.
  revert w. induction l1 as [|x l1 IH]; intros w; simpl.
  - reflexivity.
  - unfold bind. destruct (body x w) as [[[]|e] wx]; [apply IH | reflexivity].
Qed.

(** The loop up to a key whose earlier keys all went through. *)
Lemma for_each_reaches {A} (body : A -> M unit) l1 x l2 w w1 :
  for_each body l1 w = (Ok tt, w1) ->
  for_each body (l1 ++ x :: l2) w
  = match body x w1 with
    | (Ok _, w2) => for_each body l2 w2
    | (Raise e, w2) => (Raise e, w2)
    end.
Proof.
  intros H. rewrite for_each_app, H. reflexivity.
Qed.

(** ** Traces *)

Lemma extends_trace_refl ok w : extends_trace ok w w.
Proof.
  split; [reflexivity|]. exists []. now rewrite app_nil_r.
Qed.

Lemma extends_trace_trans ok w1 w2 w3 :
  extends_trace ok w1 w2 -> extends_trace ok w2 w3 -> extends_trace ok w1 w3.
Proof.
  intros [Hv1 [e1 [Ht1 Hf1]]] [Hv2 [e2 [Ht2 Hf2]]]. split; [congruence|].
  exists (e1 ++ e2)%list. split.
  - now rewrite Ht2, Ht1, app_assoc.
  - apply Forall_app. now split.
Qed.

Lemma extends_trace_log (ok : event -> Prop) ev w :
  ok ev -> extends_trace ok w (log ev w).
Proof.
  intros H. split; [reflexivity|]. exists [ev]. split; [reflexivity|].
  now constructor.
Qed.

Lemma merge_connection_trace P c w :
  extends_trace entry_event w (snd (merge_connection P c w)).
Proof.
  unfold merge_connection. simpl.
  destruct (session_commit P _ _); simpl;
    (split; [reflexivity|]; exists [EvMerge c]; split;
     [reflexivity | now repeat constructor]).
Qed.

Lemma execute_body_trace P key cfg k w :
  extends_trace entry_event w (snd (execute_body P key cfg k w)).
Proof.
  destruct (execute_body_cases P key cfg k w)
    as [H|[[e H]|[[tok [e H]]|[tok [c H]]]]]; rewrite H; simpl.
  - apply extends_trace_refl.
  - apply extends_trace_refl.
  - now apply extends_trace_log.
  - eapply extends_trace_trans; [|apply merge_connection_trace].
    now apply extends_trace_log.
Qed.

Lemma for_each_trace P key cfg ks w :
  extends_trace entry_event w
    (snd (for_each (execute_body P key cfg) ks w)).
Proof.
  revert w. induction ks as [|k ks IH]; intros w; simpl.
  - apply extends_trace_refl.
  - unfold bind.
    pose proof (execute_body_trace P key cfg k w) as Hb.
    destruct (execute_body P key cfg k w) as [[[]|e] wk]; simpl in *.
    + eapply extends_trace_trans; [exact Hb | apply IH].
    + exact Hb.
Qed.

(** ** The connection table *)

Lemma merge_connection_table P c w :
  connection_table (snd (merge_connection P c w)) = connection_table w
  \/ connection_table (snd (merge_connection P c w))
     = upsert c (connection_table w).
Proof.
  unfold merge_connection. simpl.
  destruct (session_commit P _ _); simpl; auto.
Qed.

Lemma merge_connection_ok P c w w' :
  merge_connection P c w = (Ok tt, w') ->
  connection_table w' = upsert c (connection_table w).
Proof.
  unfold merge_connection. simpl.
  destruct (session_commit P _ _); intros H; inversion H. reflexivity.
Qed.

Lemma execute_body_table P key cfg k w :
  connection_table (snd (execute_body P key cfg k w)) = connection_table w
  \/ exists c, connection_table (snd (execute_body P key cfg k w))
               = upsert c (connection_table w).
Proof.
  destruct (execute_body_cases P key cfg k w)
    as [H|[[e H]|[[tok [e H]]|[tok [c H]]]]]; rewrite H; simpl; auto.
  destruct (merge_connection_table P c
              (log (EvDecrypt (password key) tok) w)) as [Hm|Hm];
    rewrite Hm; simpl; eauto.
Qed.

Lemma for_each_preserves P key cfg ks (I : list Connection -> Prop) w :
  upsert_closed I ->
  I (connection_table w) ->
  I (connection_table (snd (for_each (execute_body P key cfg) ks w))).
Proof.
  intros HI. revert w. induction ks as [|k ks IH]; intros w Hw; simpl.
  - exact Hw.
  - unfold bind.
    assert (Hb : I (connection_table (snd (execute_body P key cfg k w)))).
    { destruct (execute_body_table P key cfg k w) as [E|[c E]]; rewrite E;
        [exact Hw | now apply HI]. }
    destruct (execute_body P key cfg k w) as [[[]|e] wk]; simpl in *.
    + now apply IH.
    + exact Hb.
Qed.

Lemma execute_preserves P op (I : list Connection -> Prop) w :
  upsert_closed I ->
  I (connection_table w) ->
  I (connection_table (snd (execute P op w))).
Proof.
  intros HI Hw. unfold execute, bind, get_connection, Variable_get.
  destruct (BaseHook_get_connection P (connection_table w)
              (fernet_key_conn_id op)) as [key|e]; simpl; [|exact Hw].
  now apply for_each_preserves.
Qed.

Lemma run_sequence_preserves P runs (I : list Connection -> Prop) w :
  upsert_closed I ->
  I (connection_table w) ->
  I (connection_table (run_sequence P runs w)).
Proof.
  intros HI. revert w. induction runs as [|[op vars] runs IH]; intros w Hw.
  - exact Hw.
  - simpl. apply IH. now apply execute_preserves.
Qed.

(** A successful loop leaves what the pass for one of its keys established,
    when no later upsert can break it. *)
Lemma for_each_establishes P key cfg ks k (Q : list Connection -> Prop)
      w w' :
  upsert_closed Q ->
  (forall wa wb, execute_body P key cfg k wa = (Ok tt, wb) ->
                 Q (connection_table wb)) ->
  In k ks ->
  for_each (execute_body P key cfg) ks w = (Ok tt, w') ->
  Q (connection_table w').
Proof.
  intros HQ Hk. revert w. induction ks as [|x ks IH]; intros w Hin Hrun.
  - contradiction.
  - simpl in Hrun. unfold bind in Hrun.
    destruct (execute_body P key cfg x w) as [[[]|e] wx] eqn:Hx;
      [|discriminate].
    destruct (String.string_dec x k) as [->|Hne].
    + pose proof (for_each_preserves P key cfg ks Q wx HQ (Hk _ _ Hx)) as Hp.
      rewrite Hrun in Hp. exact Hp.
    + destruct Hin as [E|Hin]; [contradiction|]. now apply IH with (w := wx).
Qed.

Lemma count_one_closed id : upsert_closed (fun t => count_id id t = 1).
Proof.
  intros c t H. rewrite count_id_upsert. now destruct (conn_id c =? id).
Qed.

Lemma count_bound_closed id n :
  upsert_closed (fun t => count_id id t <= Nat.max 1 n).
Proof.
  intros c t H. rewrite count_id_upsert.
  destruct (conn_id c =? id); lia.
Qed.

Lemma unique_ids_closed :
  upsert_closed (fun t => NoDup (map conn_id t)).
Proof.
  intros c t H. apply count_id_NoDup. intros id.
  rewrite count_id_upsert. destruct (conn_id c =? id); [lia|].
  now apply count_id_NoDup.
Qed.

(** [execute] once the key connection is found. *)
Lemma execute_found P op w key w1 cfg w2 :
  get_connection P (fernet_key_conn_id op) w = (Ok key, w1) ->
  Variable_get (config_variable_key op) [] w1 = (Ok cfg, w2) ->
  execute P op w = for_each (execute_body P key cfg) (map fst cfg) w2.
Proof.
  intros Hk Hv. unfold execute, bind. now rewrite Hk, Hv.
Qed.

Lemma dict_lookup_In d k v : dict_lookup d k = Some v -> In k (map fst d).
Proof.
  induction d as [|[k' v'] d IH]; simpl; [discriminate|].
  destruct (String.eqb_spec k' k); auto.
Qed.

Lemma execute_trace_variables P op w :
  variable_table (snd (execute P op w)) = variable_table w.
Proof.
  unfold execute, bind, get_connection, Variable_get.
  destruct (BaseHook_get_connection P (connection_table w)
              (fernet_key_conn_id op)) as [key|e]; simpl; [|reflexivity].
  match goal with
  | |- context [for_each ?b ?ks ?w0] =>
      destruct (for_each_trace P key
                  match find (fun kv => fst kv =? config_variable_key op)
                             (variable_table w) with
                  | Some kv => snd kv
                  | None => []
                  end ks w0) as [Hv _]
  end.
  exact Hv.
Qed.

Lemma conn_prefix_url_independent v url url' :
  fst (conn_prefix_and_url v url) = fst (conn_prefix_and_url v url').
Proof.
  unfold conn_prefix_and_url.
  destruct (eq_str v "SALESFORCE"); [reflexivity|].
  destruct (eq_str v "HUBSPOT"); [reflexivity|].
  destruct (eq_str v "GOOGLE_ANALYTICS"); reflexivity.
Qed.

(** A pass of the body that goes through for an accepted config leaves
    one row named after the config. *)
Lemma execute_body_one_row P key cfg k org wa wb :
  getitem cfg k = Ok (VDict org) ->
  accepted org = true ->
  execute_body P key cfg k wa = (Ok tt, wb) ->
  count_id (entry_conn_id P org) (connection_table wb) = 1.
Proof.
  intros Hitem Hacc Hrun.
  destruct (accepted_fields org Hacc)
    as [ty [tok [url [He [Ht [Hin [Hk Hu]]]]]]].
  rewrite (execute_body_accepted P key cfg k org ty tok url
             Hitem He Ht Hin Hk Hu wa) in Hrun.
  destruct (decrypt_str P (password key) tok) as [a|e]; [|discriminate].
  apply merge_connection_ok in Hrun. rewrite Hrun, count_id_upsert.
  unfold entry_conn_id. rewrite Ht.
  rewrite (conn_prefix_url_independent (VStr ty) "" url).
  simpl. now rewrite String.eqb_refl.
Qed.

(** ** C1: one row per conn_id *)

(** C1.  No run of [execute], and so no sequence of runs, makes a second
    row with a [conn_id]: the number of rows of any name never exceeds what
    it was before (or one); a table without two rows of one name stays so;
    a merge that commits leaves exactly one row named like its record,
    whatever was there before; and when a run goes through, every accepted
    config of the variable has exactly one row of its derived [conn_id],
    also after the operator is run a second time on the same variable
    (which it then reads unchanged). *)
Theorem C1_one_row_per_conn_id (P : Platform) :
  (forall runs w id,
      count_id id (connection_table (run_sequence P runs w))
      <= Nat.max 1 (count_id id (connection_table w)))
  /\ (forall runs w,
        NoDup (map conn_id (connection_table w)) ->
        NoDup (map conn_id (connection_table (run_sequence P runs w))))
  /\ (forall c w w',
        merge_connection P c w = (Ok tt, w') ->
        count_id (conn_id c) (connection_table w') = 1)
  /\ (forall op w w1 cfg k org,
        fst (Variable_get (config_variable_key op) [] w) = Ok cfg ->
        execute P op w = (Ok tt, w1) ->
        dict_lookup cfg k = Some (VDict org) ->
        accepted org = true ->
        count_id (entry_conn_id P org) (connection_table w1) = 1
        /\ fst (Variable_get (config_variable_key op) [] w1) = Ok cfg
        /\ count_id (entry_conn_id P org)
             (connection_table (snd (execute P op w1))) = 1).
Proof.
  split; [|split; [|split]].
  - intros runs w id.
    apply (run_sequence_preserves P runs
             (fun t => count_id id t <= Nat.max 1
                                          (count_id id (connection_table w)))).
    + apply count_bound_closed.
    + lia.
  - intros runs w H.
    now apply (run_sequence_preserves P runs
                 (fun t => NoDup (map conn_id t)) w unique_ids_closed).
  - intros c w w' H. apply merge_connection_ok in H.
    rewrite H, count_id_upsert. now rewrite String.eqb_refl.
  - intros op w w1 cfg k org Hcfg Hrun Hk Hacc.
    assert (H1 : count_id (entry_conn_id P org) (connection_table w1) = 1).
    { unfold execute, bind in Hrun.
      destruct (get_connection P (fernet_key_conn_id op) w)
        as [[key|e] wk] eqn:Hkey; [|discriminate].
      assert (Hcfg' : Variable_get (config_variable_key op) [] wk
                      = (Ok cfg, log (EvVariableGet (config_variable_key op))
                                     wk)).
      { unfold Variable_get in *. simpl in Hcfg.
        assert (Hv : variable_table wk = variable_table w).
        { unfold get_connection in Hkey. now inversion Hkey. }
        rewrite Hv. now inversion Hcfg. }
      rewrite Hcfg' in Hrun.
      apply (for_each_establishes P key cfg (map fst cfg) k
               (fun t => count_id (entry_conn_id P org) t = 1)
               (log (EvVariableGet (config_variable_key op)) wk) w1
               (count_one_closed _)); try assumption.
      - intros wa wb Hb.
        apply (execute_body_one_row P key cfg k org wa wb); try assumption.
        unfold getitem. now rewrite Hk.
      - now apply dict_lookup_In with (v := VDict org). }
    split; [exact H1|]. split.
    + unfold Variable_get in *. simpl in *.
      assert (Hv : variable_table w1 = variable_table w).
      { pose proof (execute_trace_variables P op w) as E.
        now rewrite Hrun in E. }
      now rewrite Hv.
    + now apply (execute_preserves P op
                   (fun t => count_id (entry_conn_id P org) t = 1) w1
                   (count_one_closed _)).
Qed.

(** ** C2, C3: configs that are skipped *)

(** The run of the small platform on a config whose [is_enabled] is 1. *)
Example enabled_by_one_run :
  connection_table
    (snd (execute Demo.platform Demo.op
            (Demo.world_of [("acme", VDict Demo.one_fields)])))
  = [Demo.key_conn;
     mkConnection "sf_acme" "http" "https://acme.example" (Some "tok123")
                  extra_direct].
Proof. vm_compute. reflexivity. Qed.

(** C2, as stated, fails: a config whose [is_enabled] is the number 1 (not
    the boolean true) is not skipped; its row is created. *)
Lemma C2_counterexample :
  dict_get Demo.one_fields "is_enabled" (VBool false) = VInt 1
  /\ VInt 1 <> VBool true
  /\ execute_body Demo.platform Demo.key_conn
       [("acme", VDict Demo.one_fields)] "acme"
       (Demo.world_of [("acme", VDict Demo.one_fields)])
     <> (Ok tt, Demo.world_of [("acme", VDict Demo.one_fields)])
  /\ In (mkConnection "sf_acme" "http" "https://acme.example"
                      (Some "tok123") extra_direct)
        (connection_table
           (snd (execute Demo.platform Demo.op
                   (Demo.world_of [("acme", VDict Demo.one_fields)])))).
Proof.
  split; [reflexivity|]. split; [discriminate|]. split.
  - vm_compute. discriminate.
  - rewrite enabled_by_one_run. right. now left.
Qed.

(** C2, amended.  A config whose [is_enabled] is missing or is the boolean
    false is skipped with no effect at all: the pass returns normally and
    leaves the world (connection table, trace) as it was.  Any other value
    of [is_enabled] (the boolean true, but also 1, a string or null) does
    not make the pass skip: a config that also has a supported type and
    string token and instance url has its token decrypted and, on success,
    its record merged. *)
Theorem C2_disabled_config_skipped P key cfg k org w :
  getitem cfg k = Ok (VDict org) ->
  (dict_lookup org "is_enabled" = None
   \/ dict_lookup org "is_enabled" = Some (VBool false) ->
   execute_body P key cfg k w = (Ok tt, w))
  /\ (forall v ty tok url,
        dict_lookup org "is_enabled" = Some v ->
        v <> VBool false ->
        dict_get org "type" VNone = VStr ty ->
        In ty _enabled_types ->
        dict_get org "token" VNone = VStr tok ->
        dict_get org "instance_url" VNone = VStr url ->
        execute_body P key cfg k w
        = match decrypt_str P (password key) tok with
          | Ok access_token =>
              merge_connection P (built_record P org ty url access_token)
                (log (EvDecrypt (password key) tok) w)
          | Raise e => (Raise e, log (EvDecrypt (password key) tok) w)
          end).
Proof.
  intros Hitem. split.
  - intros Hdis. apply execute_body_rejected with (org := org); [assumption|].
    unfold accepted, dict_get.
    destruct Hdis as [H|H]; rewrite H; reflexivity.
  - intros v ty tok url Hv Hne Ht Hin Hk Hu.
    apply execute_body_accepted with (org_config := org) (ty := ty)
                                     (url := url); try assumption.
    unfold dict_get. rewrite Hv.
    destruct v as [|[]| | | | |]; try reflexivity. congruence.
Qed.

Lemma C2_disabled_config_skipped_witness :
  execute_body Demo.platform Demo.key_conn
    [("acme", VDict Demo.unflagged_fields)] "acme"
    (Demo.world_of [("acme", VDict Demo.unflagged_fields)])
  = (Ok tt, Demo.world_of [("acme", VDict Demo.unflagged_fields)]).
Proof.
  apply (proj1 (C2_disabled_config_skipped Demo.platform Demo.key_conn
                  [("acme", VDict Demo.unflagged_fields)] "acme"
                  Demo.unflagged_fields
                  (Demo.world_of [("acme", VDict Demo.unflagged_fields)])
                  eq_refl)).
  left. reflexivity.
Defined.

(** C3.  A config (enabled or not) whose type is none of
    GOOGLE_ANALYTICS, HUBSPOT, SALESFORCE, or whose token is not a string,
    or whose instance url is not a string, is skipped: the pass returns
    normally, and the world is as before, so no row was made and, the
    trace being the same, nothing was decrypted. *)
Theorem C3_invalid_config_skipped P key cfg k org w :
  getitem cfg k = Ok (VDict org) ->
  (forall ty, In ty _enabled_types -> dict_get org "type" VNone <> VStr ty)
  \/ (forall s, dict_get org "token" VNone <> VStr s)
  \/ (forall s, dict_get org "instance_url" VNone <> VStr s) ->
  execute_body P key cfg k w = (Ok tt, w).
Proof.
  intros Hitem Hbad.
  apply execute_body_rejected with (org := org); [assumption|].
  destruct (accepted org) eqn:Hacc; [|reflexivity].
  destruct (accepted_fields org Hacc)
    as [ty [tok [url [He [Ht [Hin [Hk Hu]]]]]]].
  destruct Hbad as [H|[H|H]]; exfalso.
  - exact (H ty Hin Ht).
  - exact (H tok Hk).
  - exact (H url Hu).
Qed.

Lemma C3_invalid_config_skipped_witness :
  let cfg :=
    [("acme", Demo.entry (VBool true) (VStr "acme") (VStr "SALESFORCE")
                         (VInt 42) (VStr "https://acme.example"))] in
  execute_body Demo.platform Demo.key_conn cfg "acme" (Demo.world_of cfg)
  = (Ok tt, Demo.world_of cfg).
Proof.
  apply (C3_invalid_config_skipped Demo.platform Demo.key_conn _ "acme"
           (Demo.fields (VBool true) (VStr "acme") (VStr "SALESFORCE")
                        (VInt 42) (VStr "https://acme.example"))).
  - reflexivity.
  - right. left. intros s. simpl. discriminate.
Defined.

(** ** C4, C5, C10: the record of an accepted config *)

Lemma conn_prefix_and_url_cases ty url :
  In ty _enabled_types ->
  (ty = "SALESFORCE" /\ conn_prefix_and_url (VStr ty) url = ("sf", url))
  \/ (ty = "HUBSPOT"
      /\ conn_prefix_and_url (VStr ty) url
         = ("hs", "https://api.hubapi.com/"))
  \/ (ty = "GOOGLE_ANALYTICS"
      /\ conn_prefix_and_url (VStr ty) url = ("ga", url)).
Proof.
  unfold _enabled_types. simpl.
  intros [H|[H|[H|[]]]]; subst ty; auto.
Qed.

Section AcceptedConfig.

Context (P : Platform) (secret_key_conn : Connection)
        (dag_config_var : dict) (config_key : string)
        (org_config : dict) (ty tok url access_token : string) (w : world).

Hypothesis Hitem : getitem dag_config_var config_key = Ok (VDict org_config).
Hypothesis Henabled :
  is_False (dict_get org_config "is_enabled" (VBool false)) = false.
Hypothesis Htype : dict_get org_config "type" VNone = VStr ty.
Hypothesis Hsupported : In ty _enabled_types.
Hypothesis Htoken : dict_get org_config "token" VNone = VStr tok.
Hypothesis Hurl : dict_get org_config "instance_url" VNone = VStr url.
Hypothesis Hdecrypt :
  decrypt_str P (password secret_key_conn) tok = Ok access_token.

Lemma execute_body_merges :
  execute_body P secret_key_conn dag_config_var config_key w
  = merge_connection P (built_record P org_config ty url access_token)
      (log (EvDecrypt (password secret_key_conn) tok) w).
Proof.
  rewrite (execute_body_accepted P secret_key_conn dag_config_var config_key
             org_config ty tok url Hitem Henabled Htype Hsupported Htoken
             Hurl w).
  now rewrite Hdecrypt.
Qed.

(** C4.  For a config of type HUBSPOT that passes the checks (its
    [is_enabled] is not False, in particular when it is true) and whose
    token decrypts, the record that is merged has the host
    [https://api.hubapi.com/], whatever instance url the config gives, and
    a [conn_id] that starts with [hs_]. *)
Theorem C4_hubspot_host_and_prefix :
  ty = "HUBSPOT" ->
  exists c,
    execute_body P secret_key_conn dag_config_var config_key w
    = merge_connection P c
        (log (EvDecrypt (password secret_key_conn) tok) w)
    /\ host c = "https://api.hubapi.com/"
    /\ conn_id c
       = "hs" ++ "_" ++ py_str P (dict_get org_config "organization" VNone).
Proof.
  intros Hhub. exists (built_record P org_config ty url access_token).
  split; [apply execute_body_merges|]. subst ty. split; reflexivity.
Qed.



End AcceptedConfig.

Lemma C4_hubspot_host_and_prefix_witness :
  exists c,
    execute_body Demo.platform Demo.key_conn
      (Demo.acme "HUBSPOT" "https://ignored.example") "acme"
      (Demo.world_of (Demo.acme "HUBSPOT" "https://ignored.example"))
    = merge_connection Demo.platform c
        (log (EvDecrypt (Some "K") "K:tok123")
           (Demo.world_of (Demo.acme "HUBSPOT" "https://ignored.example")))
    /\ host c = "https://api.hubapi.com/"
    /\ conn_id c = "hs_acme".
Proof.
  apply (C4_hubspot_host_and_prefix Demo.platform Demo.key_conn
           (Demo.acme "HUBSPOT" "https://ignored.example") "acme"
           (Demo.acme_fields "HUBSPOT" "https://ignored.example")
           "HUBSPOT" "K:tok123" "https://ignored.example" "tok123"
           (Demo.world_of (Demo.acme "HUBSPOT" "https://ignored.example")));
    try reflexivity.
  right. left. reflexivity.
Defined.



(** The run on the config without organisation makes the row [sf_None]. *)
Example anonymous_run :
  connection_table
    (snd (execute Demo.platform Demo.op
            (Demo.world_of [("acme", VDict Demo.anonymous_fields)])))
  = [Demo.key_conn;
     mkConnection "sf_None" "http" "https://acme.example" (Some "tok123")
                  extra_direct].
Proof. vm_compute. reflexivity. Qed.

(** ** C6, C7: a failure in the middle of a run *)

Section RunUpTo.

Context (P : Platform) (self : operator) (w : world)
        (secret_key_conn : Connection) (w1 : world)
        (dag_config_var : dict) (w2 : world)
        (before : list string) (config_key : string) (after : list string)
        (w3 : world) (org_config : dict).

(** The key is found and the variable read... *)
Hypothesis Hkey :
  get_connection P (fernet_key_conn_id self) w = (Ok secret_key_conn, w1).
Hypothesis Hvar :
  Variable_get (config_variable_key self) [] w1 = (Ok dag_config_var, w2).
(** ... the passes for the keys before [config_key] go through... *)
Hypothesis Hkeys : map fst dag_config_var = (before ++ config_key :: after)%list.
Hypothesis Hbefore :
  for_each (execute_body P secret_key_conn dag_config_var) before w2
  = (Ok tt, w3).
(** ... and the config at [config_key] is accepted. *)
Hypothesis Hitem : getitem dag_config_var config_key = Ok (VDict org_config).
Hypothesis Haccepted : accepted org_config = true.

Lemma execute_reaches :
  execute P self w
  = match execute_body P secret_key_conn dag_config_var config_key w3 with
    | (Ok _, w4) =>
        for_each (execute_body P secret_key_conn dag_config_var) after w4
    | (Raise e, w4) => (Raise e, w4)
    end.
Proof.
  rewrite (execute_found P self w secret_key_conn w1 dag_config_var w2
             Hkey Hvar).
  rewrite Hkeys. now apply for_each_reaches.
Qed.

(** The run gets to decrypt the token of the accepted config. *)
Lemma execute_decrypts tok :
  dict_get org_config "token" VNone = VStr tok ->
  extends_trace entry_event
    (log (EvDecrypt (password secret_key_conn) tok) w3)
    (snd (execute P self w)).
Proof.
  intros Htok. rewrite execute_reaches.
  destruct (execute_body_accepted_token P secret_key_conn dag_config_var
              config_key org_config tok w3 Hitem Haccepted Htok)
    as [ty [url [_ [_ [_ Hb]]]]].
  rewrite Hb.
  destruct (decrypt_str P (password secret_key_conn) tok) as [a|e]; simpl;
    [|apply extends_trace_refl].
  pose proof (merge_connection_trace P (built_record P org_config ty url a)
                (log (EvDecrypt (password secret_key_conn) tok) w3)) as Hm.
  destruct (merge_connection P (built_record P org_config ty url a)
              (log (EvDecrypt (password secret_key_conn) tok) w3))
    as [[[]|e] wm]; simpl in *; [|exact Hm].
  eapply extends_trace_trans; [exact Hm | apply for_each_trace].
Qed.

(** C6.  When the token of an accepted config does not decrypt, the
    exception of [decrypt_str] leaves [execute]: the run ends with it.
    The connection table is the one the passes before had made (their rows
    stay, no row is made for the failing config), and the trace ends with
    the failed decryption, so nothing is done for the keys after. *)
Theorem C6_decryption_failure_aborts_run tok e :
  dict_get org_config "token" VNone = VStr tok ->
  decrypt_str P (password secret_key_conn) tok = Raise e ->
  execute P self w
  = (Raise e, log (EvDecrypt (password secret_key_conn) tok) w3)
  /\ connection_table (snd (execute P self w)) = connection_table w3
  /\ trace (snd (execute P self w))
     = (trace w3 ++ [EvDecrypt (password secret_key_conn) tok])%list.
Proof.
  intros Htok Hfail.
  assert (H : execute P self w
              = (Raise e, log (EvDecrypt (password secret_key_conn) tok) w3)).
  { rewrite execute_reaches.
    destruct (execute_body_accepted_token P secret_key_conn dag_config_var
                config_key org_config tok w3 Hitem Haccepted Htok)
      as [ty [url [_ [_ [_ Hb]]]]].
    now rewrite Hb, Hfail. }
  rewrite H. repeat split.
Qed.

(** C7, amended.  When the commit of the merge for an accepted config
    raises, the session is rolled back and the exception leaves
    [execute]: the run ends with it.  The connection table is the one the
    passes before had made (their rows stay, the failing config changes
    nothing), and the trace ends with the failed merge, so nothing is done
    for the keys after. *)
Theorem C7_persistence_failure_aborts_run ty tok url access_token e :
  dict_get org_config "type" VNone = VStr ty ->
  dict_get org_config "token" VNone = VStr tok ->
  dict_get org_config "instance_url" VNone = VStr url ->
  decrypt_str P (password secret_key_conn) tok = Ok access_token ->
  session_commit P (connection_table w3)
    (upsert (built_record P org_config ty url access_token)
            (connection_table w3))
  = Raise e ->
  execute P self w
  = (Raise e,
     log (EvMerge (built_record P org_config ty url access_token))
         (log (EvDecrypt (password secret_key_conn) tok) w3))
  /\ connection_table (snd (execute P self w)) = connection_table w3
  /\ trace (snd (execute P self w))
     = (trace w3
          ++ [EvDecrypt (password secret_key_conn) tok;
              EvMerge (built_record P org_config ty url access_token)])%list.
Proof.
  intros Hty Htok Hurl Hdec Hcommit.
  assert (H : execute P self w
              = (Raise e,
                 log (EvMerge (built_record P org_config ty url access_token))
                   (log (EvDecrypt (password secret_key_conn) tok) w3))).
  { rewrite execute_reaches.
    destruct (execute_body_accepted_token P secret_key_conn dag_config_var
                config_key org_config tok w3 Hitem Haccepted Htok)
      as [ty' [url' [Hty' [_ [Hurl' Hb]]]]].
    assert (ty' = ty) by congruence. assert (url' = url) by congruence.
    subst ty' url'. rewrite Hb, Hdec.
    unfold merge_connection. simpl. now rewrite Hcommit. }
  rewrite H. simpl. split; [reflexivity|]. split; [reflexivity|].
  now rewrite <- app_assoc.
Qed.

End RunUpTo.

Lemma C6_decryption_failure_aborts_run_witness :
  execute Demo.platform Demo.op (Demo.world_of Demo.with_stale)
  = (Raise InvalidToken,
     log (EvDecrypt (Some "K") "J:tok456")
         (Demo.after_acme Demo.with_stale))
  /\ connection_table
       (snd (execute Demo.platform Demo.op (Demo.world_of Demo.with_stale)))
     = connection_table (Demo.after_acme Demo.with_stale)
  /\ trace
       (snd (execute Demo.platform Demo.op (Demo.world_of Demo.with_stale)))
     = (trace (Demo.after_acme Demo.with_stale)
          ++ [EvDecrypt (Some "K") "J:tok456"])%list.
Proof.
  apply (C6_decryption_failure_aborts_run Demo.platform Demo.op
           (Demo.world_of Demo.with_stale) Demo.key_conn
           (log (EvGetConnection (Some "fernet_key"))
                (Demo.world_of Demo.with_stale))
           Demo.with_stale (Demo.started Demo.with_stale)
           ["acme"] "stale" ["beta"] (Demo.after_acme Demo.with_stale)
           Demo.stale_fields);
    vm_compute; reflexivity.
Defined.

(** What the run with the stale token leaves: the row of the config
    before, and none for the config after. *)
Example stale_run :
  connection_table
    (snd (execute Demo.platform Demo.op (Demo.world_of Demo.with_stale)))
  = [Demo.key_conn;
     mkConnection "sf_acme" "http" "https://acme.example" (Some "tok123")
                  extra_direct].
Proof. vm_compute. reflexivity. Qed.

(** The run of the small platform on the three configs of which the
    second has too long a name for the database. *)
Example long_run :
  fst (execute Demo.platform Demo.op (Demo.world_of Demo.with_long))
  = Raise SQLAlchemyError
  /\ connection_table
       (snd (execute Demo.platform Demo.op (Demo.world_of Demo.with_long)))
     = [Demo.key_conn;
        mkConnection "sf_acme" "http" "https://acme.example" (Some "tok123")
                     extra_direct]
  /\ existsb (fun ev =>
                match ev with
                | EvDecrypt _ tok => tok =? "K:tok000"
                | _ => false
                end)
       (trace (snd (execute Demo.platform Demo.op
                      (Demo.world_of Demo.with_long))))
     = false.
Proof. vm_compute. repeat split; reflexivity. Qed.

(** The third config alone is merged. *)
Example beta_run :
  execute_body Demo.platform Demo.key_conn
    [("beta", VDict Demo.beta_fields)] "beta"
    (Demo.world_of [("beta", VDict Demo.beta_fields)])
  = (Ok tt,
     mkWorld
       [Demo.key_conn;
        mkConnection "ga_beta" "http" "https://beta.example" (Some "tok000")
                     extra_direct]
       [("dag_config", [("beta", VDict Demo.beta_fields)])]
       [EvDecrypt (Some "K") "K:tok000";
        EvMerge (mkConnection "ga_beta" "http" "https://beta.example"
                              (Some "tok000") extra_direct)]).
Proof. vm_compute. reflexivity. Qed.

(** C7, as stated, fails: when the commit for the second of three configs
    raises, the run as a whole ends with that exception, and the third
    config, which is accepted, is not processed: its token is never
    decrypted and it gets no row. *)
Lemma C7_counterexample :
  fst (execute Demo.platform Demo.op (Demo.world_of Demo.with_long))
  = Raise SQLAlchemyError
  /\ accepted Demo.beta_fields = true
  /\ count_id "ga_beta"
       (connection_table
          (snd (execute Demo.platform Demo.op
                  (Demo.world_of Demo.with_long))))
     = 0
  /\ existsb (fun ev =>
                match ev with
                | EvDecrypt _ tok => tok =? "K:tok000"
                | _ => false
                end)
       (trace (snd (execute Demo.platform Demo.op
                      (Demo.world_of Demo.with_long))))
     = false.
Proof.
  destruct long_run as [H1 [H2 H3]].
  split; [exact H1|]. split; [reflexivity|]. split; [|exact H3].
  rewrite H2. reflexivity.
Qed.

Lemma C7_persistence_failure_aborts_run_witness :
  execute Demo.platform Demo.op (Demo.world_of Demo.with_long)
  = (Raise SQLAlchemyError,
     log (EvMerge (built_record Demo.platform Demo.long_fields
                     "GOOGLE_ANALYTICS" "https://long.example" "tok789"))
         (log (EvDecrypt (Some "K") "K:tok789")
              (Demo.after_acme Demo.with_long)))
  /\ connection_table
       (snd (execute Demo.platform Demo.op (Demo.world_of Demo.with_long)))
     = connection_table (Demo.after_acme Demo.with_long)
  /\ trace
       (snd (execute Demo.platform Demo.op (Demo.world_of Demo.with_long)))
     = (trace (Demo.after_acme Demo.with_long)
          ++ [EvDecrypt (Some "K") "K:tok789";
              EvMerge (built_record Demo.platform Demo.long_fields
                         "GOOGLE_ANALYTICS" "https://long.example"
                         "tok789")])%list.
Proof.
  apply (C7_persistence_failure_aborts_run Demo.platform Demo.op
           (Demo.world_of Demo.with_long) Demo.key_conn
           (log (EvGetConnection (Some "fernet_key"))
                (Demo.world_of Demo.with_long))
           Demo.with_long (Demo.started Demo.with_long)
           ["acme"] "long" ["beta"] (Demo.after_acme Demo.with_long)
           Demo.long_fields);
    vm_compute; reflexivity.
Defined.

(** ** C8: the key connection *)






(** ** C9: the flag [is_encrypted] *)

(** C9.  The argument [is_encrypted] of the constructor changes nothing:
    two operators built with the same other arguments run alike from any
    world (same outcome, same connection table, same trace).  Whatever the
    flag, a run that gets to an accepted config passes its token to
    [decrypt_str]. *)
Theorem C9_is_encrypted_ignored P config_key_name key_conn_id flag flag' w :
  execute P (init config_key_name key_conn_id flag) w
  = execute P (init config_key_name key_conn_id flag') w
  /\ (forall secret_key_conn w1 dag_config_var w2 before config_key after w3
             org_config tok,
        get_connection P key_conn_id w = (Ok secret_key_conn, w1) ->
        Variable_get config_key_name [] w1 = (Ok dag_config_var, w2) ->
        map fst dag_config_var = (before ++ config_key :: after)%list ->
        for_each (execute_body P secret_key_conn dag_config_var) before w2
        = (Ok tt, w3) ->
        getitem dag_config_var config_key = Ok (VDict org_config) ->
        accepted org_config = true ->
        dict_get org_config "token" VNone = VStr tok ->
        exists later,
          trace (snd (execute P (init config_key_name key_conn_id flag) w))
          = (trace w3 ++ EvDecrypt (password secret_key_conn) tok :: later)%list).
Proof.
  split; [reflexivity|].
  intros key w1 cfg w2 before k after w3 org tok Hk Hv Hks Hb Hi Ha Ht.
  destruct (execute_decrypts P (init config_key_name key_conn_id flag) w
              key w1 cfg w2 before k after w3 org Hk Hv Hks Hb Hi Ha tok Ht)
    as [_ [evs [He _]]].
  exists evs. rewrite He. simpl. now rewrite <- app_assoc.
Qed.

Lemma C9_is_encrypted_ignored_witness :
  exists later,
    trace (snd (execute Demo.platform (init "dag_config" (Some "fernet_key")
                                            false)
                  (Demo.world_of Demo.with_stale)))
    = (trace (Demo.after_acme Demo.with_stale)
         ++ EvDecrypt (Some "K") "J:tok456" :: later)%list.
Proof.
  apply (proj2 (C9_is_encrypted_ignored Demo.platform "dag_config"
                  (Some "fernet_key") false true
                  (Demo.world_of Demo.with_stale))
           Demo.key_conn
           (log (EvGetConnection (Some "fernet_key"))
                (Demo.world_of Demo.with_stale))
           Demo.with_stale (Demo.started Demo.with_stale)
           ["acme"] "stale" ["beta"] (Demo.after_acme Demo.with_stale)
           Demo.stale_fields "J:tok456");
    vm_compute; reflexivity.
Defined.

(** ** C1 on the scenario: run twice, one row *)

Lemma C1_one_row_per_conn_id_witness :
  count_id "sf_acme"
    (connection_table
       (snd (execute Demo.platform Demo.op
               (Demo.world_of (Demo.acme "SALESFORCE" "https://a.example")))))
  = 1
  /\ fst (Variable_get "dag_config" []
            (snd (execute Demo.platform Demo.op
                    (Demo.world_of
                       (Demo.acme "SALESFORCE" "https://a.example")))))
     = Ok (Demo.acme "SALESFORCE" "https://a.example")
  /\ count_id "sf_acme"
       (connection_table
          (snd (execute Demo.platform Demo.op
                  (snd (execute Demo.platform Demo.op
                          (Demo.world_of
                             (Demo.acme "SALESFORCE" "https://a.example")))))))
     = 1.
Proof.
  exact (proj2 (proj2 (proj2 (C1_one_row_per_conn_id Demo.platform)))
           Demo.op
           (Demo.world_of (Demo.acme "SALESFORCE" "https://a.example"))
           (snd (execute Demo.platform Demo.op
                   (Demo.world_of
                      (Demo.acme "SALESFORCE" "https://a.example"))))
           (Demo.acme "SALESFORCE" "https://a.example")
           "acme"
           (Demo.acme_fields "SALESFORCE" "https://a.example")
           eq_refl eq_refl eq_refl eq_refl).
Defined.

(** The second run on the scenario leaves the table of the first. *)
Example scenario_twice :
  connection_table
    (snd (execute Demo.platform Demo.op
            (snd (execute Demo.platform Demo.op
                    (Demo.world_of
                       (Demo.acme "SALESFORCE" "https://a.example"))))))
  = [Demo.key_conn;
     mkConnection "sf_acme" "http" "https://a.example" (Some "tok123")
                  extra_direct].
Proof. vm_compute. reflexivity. Qed.

(** ** More on the loop body: what it does, whatever the world *)

(** A pass is decided by the key and the config alone: it skips, or raises
    before any call, or decrypts the token of an accepted config and merges
    its record. *)
Lemma execute_body_shape P key cfg k :
  (forall w, execute_body P key cfg k w = (Ok tt, w))
  \/ (exists e, forall w, execute_body P key cfg k w = (Raise e, w))
  \/ (exists org ty tok url,
        getitem cfg k = Ok (VDict org)
        /\ accepted org = true
        /\ dict_get org "type" VNone = VStr ty
        /\ In ty _enabled_types
        /\ dict_get org "token" VNone = VStr tok
        /\ dict_get org "instance_url" VNone = VStr url
        /\ forall w,
             execute_body P key cfg k w
             = match decrypt_str P (password key) tok with
               | Ok access_token =>
                   merge_connection P (built_record P org ty url access_token)
                     (log (EvDecrypt (password key) tok) w)
               | Raise e => (Raise e, log (EvDecrypt (password key) tok) w)
               end).
Proof.
  destruct (getitem cfg k) as [v|e] eqn:Hitem.
  2:{ right; left. exists e. intros w. unfold execute_body. run_monad.
      now rewrite Hitem. }
  destruct v as [| | | | |l|org].
  1-6: right; left; exists AttributeError; intros w; unfold execute_body;
       run_monad; now rewrite Hitem.
  destruct (accepted org) eqn:Hacc.
  - destruct (accepted_fields org Hacc)
      as [ty [tok [url [He [Ht [Hin [Hk Hu]]]]]]].
    right; right. exists org, ty, tok, url. repeat split; try assumption.
    intros w.
    now apply execute_body_accepted with (org_config := org) (ty := ty)
                                         (url := url).
  - left. intros w. now apply execute_body_rejected with (org := org).
Qed.

Lemma built_record_run_record P pw org ty tok url access_token :
  In ty _enabled_types ->
  decrypt_str P pw tok = Ok access_token ->
  run_record P pw (built_record P org ty url access_token).
Proof.
  intros Hin Hdec. unfold run_record, built_record. simpl.
  split; [reflexivity|]. split; [reflexivity|]. split; [eauto|].
  exists (fst (conn_prefix_and_url (VStr ty) url)),
         (py_str P (dict_get org "organization" VNone)).
  split; [|reflexivity].
  destruct (conn_prefix_and_url_cases ty url Hin)
    as [[E H]|[[E H]|[E H]]]; rewrite H; unfold conn_prefixes; simpl; auto.
Qed.

(** The pass depends on the key connection through its password only. *)
Lemma execute_body_password P key key' cfg k w :
  password key = password key' ->
  execute_body P key cfg k w = execute_body P key' cfg k w.
Proof.
  intros Hpw. unfold execute_body. now rewrite Hpw.
Qed.

Lemma for_each_ext {A} (f g : A -> M unit) l w :
  (forall x w', f x w' = g x w') -> for_each f l w = for_each g l w.
Proof.
  intros H. revert w. induction l as [|x l IH]; intros w; simpl.
  - reflexivity.
  - unfold bind. rewrite H. destruct (g x w) as [[[]|e] wx]; auto.
Qed.

(** What one pass does to the connection table and to the trace. *)
Lemma execute_body_step P key cfg k w :
  (connection_table (snd (execute_body P key cfg k w)) = connection_table w
   \/ exists c,
        run_record P (password key) c
        /\ fst (execute_body P key cfg k w) = Ok tt
        /\ connection_table (snd (execute_body P key cfg k w))
           = upsert c (connection_table w))
  /\ extends_trace (run_event P (password key)) w
       (snd (execute_body P key cfg k w)).
Proof.
  destruct (execute_body_shape P key cfg k)
    as [H|[[e H]|[org [ty [tok [url [_ [_ [_ [Hin [_ [_ H]]]]]]]]]]]];
    rewrite H.
  - split; [now left | apply extends_trace_refl].
  - split; [now left | apply extends_trace_refl].
  - destruct (decrypt_str P (password key) tok) as [a|e] eqn:Hdec.
    + pose proof (built_record_run_record P (password key) org ty tok url a
                    Hin Hdec) as Hrec.
      unfold merge_connection. simpl.
      destruct (session_commit P _ _); simpl.
      * split; [right; eauto|].
        split; [reflexivity|].
        exists [EvDecrypt (password key) tok;
                EvMerge (built_record P org ty url a)].
        split; [simpl; now rewrite <- app_assoc|].
        constructor; [reflexivity|]. constructor; [exact Hrec|]. constructor.
      * split; [now left|].
        split; [reflexivity|].
        exists [EvDecrypt (password key) tok;
                EvMerge (built_record P org ty url a)].
        split; [simpl; now rewrite <- app_assoc|].
        constructor; [reflexivity|]. constructor; [exact Hrec|]. constructor.
    + simpl. split; [now left|].
      apply extends_trace_log. reflexivity.
Qed.

(** A property of the table that the upsert of any record a run can write
    keeps is kept by the loop. *)
Lemma for_each_preserves_run P key cfg ks (I : list Connection -> Prop) w :
  (forall c t, run_record P (password key) c -> I t -> I (upsert c t)) ->
  I (connection_table w) ->
  I (connection_table (snd (for_each (execute_body P key cfg) ks w))).
Proof.
  intros HI. revert w. induction ks as [|k ks IH]; intros w Hw; simpl.
  - exact Hw.
  - unfold bind.
    assert (Hb : I (connection_table (snd (execute_body P key cfg k w)))).
    { destruct (execute_body_step P key cfg k w) as [[E|[c [Hc [_ E]]]] _];
        rewrite E; [exact Hw | now apply HI]. }
    destruct (execute_body P key cfg k w) as [[[]|e] wk]; simpl in *.
    + now apply IH.
    + exact Hb.
Qed.

Lemma for_each_run_events P key cfg ks w :
  extends_trace (run_event P (password key)) w
    (snd (for_each (execute_body P key cfg) ks w)).
Proof.
  revert w. induction ks as [|k ks IH]; intros w; simpl.
  - apply extends_trace_refl.
  - unfold bind.
    destruct (execute_body_step P key cfg k w) as [_ Hb].
    destruct (execute_body P key cfg k w) as [[[]|e] wk]; simpl in *.
    + eapply extends_trace_trans; [exact Hb | apply IH].
    + exact Hb.
Qed.

(** ** More on [merge_connection] *)

Lemma delete_where_twice id t :
  delete_where id (delete_where id t) = delete_where id t.
Proof.
  unfold delete_where. induction t as [|r t IH]; simpl; [reflexivity|].
  destruct (negb (conn_id r =? id)) eqn:E; simpl; [rewrite E|]; now rewrite IH.
Qed.

Lemma delete_where_upsert c t :
  delete_where (conn_id c) (upsert c t) = delete_where (conn_id c) t.
Proof.
  unfold upsert, delete_where at 1. rewrite filter_app. simpl.
  rewrite String.eqb_refl. simpl. rewrite app_nil_r.
  apply delete_where_twice.
Qed.

Lemma rows_named_delete_where id id' t :
  rows_named id (delete_where id' t)
  = if id' =? id then [] else rows_named id t.
Proof.
  unfold rows_named, delete_where.
  induction t as [|r t IH]; simpl.
  - now destruct (id' =? id).
  - destruct (String.eqb_spec (conn_id r) id') as [E1|N1]; simpl.
    + rewrite IH. subst id'.
      destruct (String.eqb_spec (conn_id r) id); simpl; auto.
    + destruct (String.eqb_spec (conn_id r) id) as [E2|N2]; simpl;
        rewrite IH; auto.
      subst id. destruct (String.eqb_spec id' (conn_id r)); congruence.
Qed.

Lemma rows_named_upsert id c t :
  rows_named id (upsert c t)
  = if conn_id c =? id then [c] else rows_named id t.
Proof.
  unfold upsert, rows_named at 1. rewrite filter_app.
  fold (rows_named id (delete_where (conn_id c) t)).
  rewrite rows_named_delete_where. simpl.
  destruct (conn_id c =? id); simpl; [reflexivity | apply app_nil_r].
Qed.

Lemma find_upsert c t :
  find (fun r => conn_id r =? conn_id c) (upsert c t) = Some c.
Proof.
  unfold upsert.
  assert (H : forall l,
             find (fun r => conn_id r =? conn_id c)
                  (delete_where (conn_id c) l ++ [c]) = Some c).
  { induction l as [|r l IH]; simpl.
    - now rewrite String.eqb_refl.
    - destruct (conn_id r =? conn_id c) eqn:E; simpl; [exact IH|].
      rewrite E. exact IH. }
  apply H.
Qed.

(** X1.  After a merge that commits, a search of the connection table by
    the record's [conn_id] finds the record; it is the only row of that
    name; and the rows of every other name are what they were, in the same
    order. *)
Theorem X1_merge_then_find P c w w' :
  merge_connection P c w = (Ok tt, w') ->
  find (fun r => conn_id r =? conn_id c) (connection_table w') = Some c
  /\ rows_named (conn_id c) (connection_table w') = [c]
  /\ delete_where (conn_id c) (connection_table w')
     = delete_where (conn_id c) (connection_table w).
Proof.
  intros H. apply merge_connection_ok in H. rewrite H.
  split; [apply find_upsert|]. split.
  - rewrite rows_named_upsert. now rewrite String.eqb_refl.
  - apply delete_where_upsert.
Qed.

Lemma X1_merge_then_find_witness :
  let c := mkConnection "fernet_key" "http" "h" (Some "K2") "" in
  find (fun r => conn_id r =? "fernet_key")
       (connection_table
          (snd (merge_connection Demo.platform c (Demo.world_of []))))
  = Some c
  /\ rows_named "fernet_key"
       (connection_table
          (snd (merge_connection Demo.platform c (Demo.world_of []))))
     = [c]
  /\ delete_where "fernet_key"
       (connection_table
          (snd (merge_connection Demo.platform c (Demo.world_of []))))
     = delete_where "fernet_key" (connection_table (Demo.world_of [])).
Proof.
  apply (X1_merge_then_find Demo.platform
           (mkConnection "fernet_key" "http" "h" (Some "K2") "")
           (Demo.world_of [])).
  reflexivity.
Defined.

(** X2.  Of two merges that commit one after the other for records of the
    same [conn_id], only the second shows: the table is what the second
    merge alone would have made of the first table. *)
Theorem X2_last_merge_wins P c1 c2 w w1 w2 :
  conn_id c1 = conn_id c2 ->
  merge_connection P c1 w = (Ok tt, w1) ->
  merge_connection P c2 w1 = (Ok tt, w2) ->
  connection_table w2 = upsert c2 (connection_table w)
  /\ rows_named (conn_id c1) (connection_table w2) = [c2].
Proof.
  intros Hid H1 H2.
  apply merge_connection_ok in H1. apply merge_connection_ok in H2.
  assert (E : connection_table w2 = upsert c2 (connection_table w)).
  { rewrite H2, H1. unfold upsert at 1. rewrite <- Hid.
    rewrite delete_where_upsert. unfold upsert. now rewrite Hid. }
  split; [exact E|].
  rewrite E, rows_named_upsert, Hid. now rewrite String.eqb_refl.
Qed.

Lemma X2_last_merge_wins_witness :
  let c1 := mkConnection "sf_acme" "http" "old" (Some "a") extra_direct in
  let c2 := mkConnection "sf_acme" "http" "new" (Some "b") extra_direct in
  connection_table
    (snd (merge_connection Demo.platform c2
            (snd (merge_connection Demo.platform c1 (Demo.world_of [])))))
  = upsert c2 (connection_table (Demo.world_of []))
  /\ rows_named "sf_acme"
       (connection_table
          (snd (merge_connection Demo.platform c2
                  (snd (merge_connection Demo.platform c1
                          (Demo.world_of []))))))
     = [c2].
Proof.
  apply (X2_last_merge_wins Demo.platform
           (mkConnection "sf_acme" "http" "old" (Some "a") extra_direct)
           (mkConnection "sf_acme" "http" "new" (Some "b") extra_direct)
           (Demo.world_of [])
           (snd (merge_connection Demo.platform
                   (mkConnection "sf_acme" "http" "old" (Some "a")
                                 extra_direct)
                   (Demo.world_of [])))
           (snd (merge_connection Demo.platform
                   (mkConnection "sf_acme" "http" "new" (Some "b")
                                 extra_direct)
                   (snd (merge_connection Demo.platform
                           (mkConnection "sf_acme" "http" "old" (Some "a")
                                         extra_direct)
                           (Demo.world_of []))))));
    reflexivity.
Defined.

(** ** More on [execute]: configs that are no dict, variables with no
    accepted config *)

Lemma execute_body_not_dict P key cfg k v w :
  getitem cfg k = Ok v ->
  (forall d, v <> VDict d) ->
  execute_body P key cfg k w = (Raise AttributeError, w).
Proof.
  intros Hitem Hnd. unfold execute_body. run_monad. rewrite Hitem.
  destruct v; try reflexivity. exfalso. now apply (Hnd items).
Qed.

(** X3.  A value of the variable that is not a JSON object (a string, a
    number, a list, null) ends the run with [AttributeError], raised by the
    first [org_config.get] before any check: the connection table is the
    one the passes before had made, nothing is decrypted or merged for the
    value, and nothing is done for the keys after it. *)
Theorem X3_config_not_a_dict_aborts_run P self w key w1 cfg w2
        before config_key after w3 v :
  get_connection P (fernet_key_conn_id self) w = (Ok key, w1) ->
  Variable_get (config_variable_key self) [] w1 = (Ok cfg, w2) ->
  map fst cfg = (before ++ config_key :: after)%list ->
  for_each (execute_body P key cfg) before w2 = (Ok tt, w3) ->
  getitem cfg config_key = Ok v ->
  (forall d, v <> VDict d) ->
  execute P self w = (Raise AttributeError, w3).
Proof.
  intros Hkey Hvar Hkeys Hbefore Hitem Hnd.
  rewrite (execute_found P self w key w1 cfg w2 Hkey Hvar), Hkeys.
  rewrite (for_each_reaches _ before config_key after w2 w3 Hbefore).
  now rewrite (execute_body_not_dict P key cfg config_key v w3 Hitem Hnd).
Qed.

Lemma X3_config_not_a_dict_aborts_run_witness :
  execute Demo.platform Demo.op (Demo.world_of Demo.with_text)
  = (Raise AttributeError, Demo.after_acme Demo.with_text).
Proof.
  apply (X3_config_not_a_dict_aborts_run Demo.platform Demo.op
           (Demo.world_of Demo.with_text) Demo.key_conn
           (log (EvGetConnection (Some "fernet_key"))
                (Demo.world_of Demo.with_text))
           Demo.with_text (Demo.started Demo.with_text)
           ["acme"] "note" ["beta"] (Demo.after_acme Demo.with_text)
           (VStr "to do"));
    try (vm_compute; reflexivity).
  intros d. discriminate.
Defined.

Lemma In_dict_lookup (d : dict) k :
  In k (map fst d) -> exists v, dict_lookup d k = Some v.
Proof.
  induction d as [|[k' v'] d IH]; simpl; [contradiction|].
  intros [E|Hin].
  - subst k'. rewrite String.eqb_refl. eauto.
  - destruct (k' =? k); eauto.
Qed.

Lemma for_each_all_rejected P key cfg ks w :
  (forall k, In k ks ->
             exists org, dict_lookup cfg k = Some (VDict org)
                         /\ accepted org = false) ->
  for_each (execute_body P key cfg) ks w = (Ok tt, w).
Proof.
  induction ks as [|k ks IH]; intros H; simpl; [reflexivity|].
  unfold bind. destruct (H k (or_introl eq_refl)) as [org [Hk Hacc]].
  rewrite (execute_body_rejected P key cfg k org w); [|unfold getitem;
                                                        now rewrite Hk
                                                       |exact Hacc].
  apply IH. intros k' Hin. apply H. now right.
Qed.

(** X4.  When the key connection resolves, a run over a variable that is
    not there (the default, an empty dict, is used), or in which every
    config is a dict that does not pass the checks, ends normally after
    the two reads: the connection table is untouched and nothing is
    decrypted or merged. *)
Theorem X4_nothing_accepted_nothing_done P self w key :
  BaseHook_get_connection P (connection_table w) (fernet_key_conn_id self)
  = Ok key ->
  (find (fun kv => fst kv =? config_variable_key self) (variable_table w)
   = None ->
   execute P self w
   = (Ok tt,
      log (EvVariableGet (config_variable_key self))
        (log (EvGetConnection (fernet_key_conn_id self)) w)))
  /\ (forall cfg,
        fst (Variable_get (config_variable_key self) [] w) = Ok cfg ->
        (forall k v, dict_lookup cfg k = Some v ->
                     exists org, v = VDict org /\ accepted org = false) ->
        execute P self w
        = (Ok tt,
           log (EvVariableGet (config_variable_key self))
             (log (EvGetConnection (fernet_key_conn_id self)) w))).
Proof.
  intros Hkey. split.
  - intros Hnone. unfold execute, bind, get_connection, Variable_get.
    rewrite Hkey. simpl. now rewrite Hnone.
  - intros cfg Hcfg Hrej.
    unfold execute, bind, get_connection. rewrite Hkey.
    unfold Variable_get in *. simpl in *. inversion Hcfg as [Hc].
    rewrite Hc. apply for_each_all_rejected.
    intros k Hin. destruct (In_dict_lookup cfg k Hin) as [v Hv].
    destruct (Hrej k v Hv) as [org [E Hacc]]. subst v. eauto.
Qed.

Lemma X4_nothing_accepted_nothing_done_witness :
  execute Demo.platform Demo.op (mkWorld [Demo.key_conn] [] [])
  = (Ok tt,
     log (EvVariableGet "dag_config")
       (log (EvGetConnection (Some "fernet_key"))
          (mkWorld [Demo.key_conn] [] []))).
Proof.
  apply (proj1 (X4_nothing_accepted_nothing_done Demo.platform Demo.op
                  (mkWorld [Demo.key_conn] [] []) Demo.key_conn eq_refl)).
  reflexivity.
Defined.

(** ** More on [execute]: what a run leaves alone *)

Lemma execute_preserves_run P op (I : list Connection -> Prop) w :
  (forall key c t,
      BaseHook_get_connection P (connection_table w) (fernet_key_conn_id op)
      = Ok key ->
      run_record P (password key) c -> I t -> I (upsert c t)) ->
  I (connection_table w) ->
  I (connection_table (snd (execute P op w))).
Proof.
  intros HI Hw. unfold execute, bind, get_connection, Variable_get.
  destruct (BaseHook_get_connection P (connection_table w)
              (fernet_key_conn_id op)) as [key|e] eqn:Hk; simpl; [|exact Hw].
  apply for_each_preserves_run; [|exact Hw].
  intros c t. now apply HI.
Qed.

Lemma run_sequence_preserves_run P runs (I : list Connection -> Prop) w :
  (forall pw c t, run_record P pw c -> I t -> I (upsert c t)) ->
  I (connection_table w) ->
  I (connection_table (run_sequence P runs w)).
Proof.
  intros HI. revert w. induction runs as [|[op vars] runs IH]; intros w Hw.
  - exact Hw.
  - simpl. apply IH. apply execute_preserves_run; [|exact Hw].
    intros key c t _. apply HI.
Qed.

(** X5.  No run, and no sequence of runs, touches a row whose [conn_id] is
    not one of the prefixes [sf], [hs], [ga] followed by an underscore:
    the rows of such a name are after the runs what they were before.  (So
    the else branch of the prefix chain, which would give the prefix the
    empty string, is never taken.) *)
Theorem X5_rows_of_other_names_untouched P runs w id :
  (forall p rest, In p conn_prefixes -> id <> p ++ "_" ++ rest) ->
  rows_named id (connection_table (run_sequence P runs w))
  = rows_named id (connection_table w).
Proof.
  intros Hid.
  apply (run_sequence_preserves_run P runs
           (fun t => rows_named id t = rows_named id (connection_table w)));
    [|reflexivity].
  intros pw c t [_ [_ [_ [p [rest [Hp Hc]]]]]] Ht.
  rewrite rows_named_upsert.
  destruct (String.eqb_spec (conn_id c) id) as [E|N]; [|exact Ht].
  exfalso. apply (Hid p rest Hp). congruence.
Qed.

Lemma X5_rows_of_other_names_untouched_witness :
  rows_named "postgres_default"
    (connection_table
       (run_sequence Demo.platform
          [(Demo.op, [("dag_config", Demo.with_stale)]);
           (Demo.op, [("dag_config", Demo.twice_acme)])]
          (Demo.world_with_foreign [])))
  = rows_named "postgres_default"
      (connection_table (Demo.world_with_foreign [])).
Proof.
  apply (X5_rows_of_other_names_untouched Demo.platform
           [(Demo.op, [("dag_config", Demo.with_stale)]);
            (Demo.op, [("dag_config", Demo.twice_acme)])]
           (Demo.world_with_foreign []) "postgres_default").
  intros p rest Hp E. unfold conn_prefixes in Hp. simpl in Hp.
  destruct Hp as [H|[H|[H|[]]]]; subst p; discriminate E.
Defined.

Lemma count_id_In id t : 1 <= count_id id t <-> In id (map conn_id t).
Proof.
  unfold count_id. induction t as [|r t IH]; simpl.
  - split; [lia | contradiction].
  - destruct (String.eqb_spec (conn_id r) id) as [E|N]; simpl.
    + split; [auto | lia].
    + rewrite IH. split; [auto | intros [H|H]; [contradiction | exact H]].
Qed.

(** X6.  No run, whether it ends normally or raises, removes a name from
    the connection table: a [conn_id] that has a row before a sequence of
    runs has one after it (the delete of a merge is only ever committed
    together with the insert of a row of the same name). *)
Theorem X6_names_are_never_removed P runs w id :
  In id (map conn_id (connection_table w)) ->
  In id (map conn_id (connection_table (run_sequence P runs w))).
Proof.
  rewrite <- !count_id_In.
  apply (run_sequence_preserves P runs (fun t => 1 <= count_id id t)).
  intros c t H. rewrite count_id_upsert.
  destruct (conn_id c =? id); [lia | exact H].
Qed.

Lemma X6_names_are_never_removed_witness :
  In "fernet_key"
     (map conn_id
        (connection_table
           (run_sequence Demo.platform
              [(Demo.op, [("dag_config", Demo.with_long)]);
               (Demo.op, [("dag_config", Demo.twice_acme)])]
              (Demo.world_of [])))).
Proof.
  apply (X6_names_are_never_removed Demo.platform
           [(Demo.op, [("dag_config", Demo.with_long)]);
            (Demo.op, [("dag_config", Demo.twice_acme)])]
           (Demo.world_of []) "fernet_key").
  simpl. left. reflexivity.
Defined.

Lemma execute_run_events P self w key :
  BaseHook_get_connection P (connection_table w) (fernet_key_conn_id self)
  = Ok key ->
  exists evs,
    trace (snd (execute P self w))
    = (trace w
         ++ EvGetConnection (fernet_key_conn_id self)
            :: EvVariableGet (config_variable_key self) :: evs)%list
    /\ Forall (run_event P (password key)) evs
    /\ Forall (run_record P (password key)) (merged evs).
Proof.
  intros Hkey. unfold execute, bind, get_connection. rewrite Hkey.
  unfold Variable_get at 1.
  match goal with
  | |- context [for_each (execute_body P key ?cfg) ?ks ?w0] =>
      destruct (for_each_run_events P key cfg ks w0) as [_ [evs [Ht Hf]]]
  end.
  exists evs. split; [|split].
  - rewrite Ht. simpl. now rewrite <- !app_assoc.
  - exact Hf.
  - clear Ht. induction Hf as [|ev evs Hev Hf IH]; simpl; [constructor|].
    destruct ev; simpl in *; try exact IH. now constructor.
Qed.



(** X8.  When [Fernet] refuses the password of the key connection (there
    is none, or it is no Fernet key), [decrypt_str] raises for every token,
    and a run writes nothing: no record reaches a merge and the connection
    table is what it was. *)
Theorem X8_unusable_key_writes_nothing P self w key e :
  BaseHook_get_connection P (connection_table w) (fernet_key_conn_id self)
  = Ok key ->
  Fernet P (password key) = Raise e ->
  (forall tok, decrypt_str P (password key) tok = Raise e)
  /\ connection_table (snd (execute P self w)) = connection_table w
  /\ exists evs,
       trace (snd (execute P self w))
       = (trace w
            ++ EvGetConnection (fernet_key_conn_id self)
               :: EvVariableGet (config_variable_key self) :: evs)%list
       /\ merged evs = [].
Proof.
  intros Hkey Hf.
  assert (Hdec : forall tok, decrypt_str P (password key) tok = Raise e).
  { intros tok. unfold decrypt_str. now rewrite Hf. }
  assert (Hnone : forall c, ~ run_record P (password key) c).
  { intros c [_ [_ [[tok [a [Ha _]]] _]]]. rewrite Hdec in Ha. discriminate. }
  split; [exact Hdec|]. split.
  - apply (execute_preserves_run P self
             (fun t => t = connection_table w)); [|reflexivity].
    intros key' c t Hk' Hc. rewrite Hkey in Hk'. inversion Hk'; subst key'.
    exfalso. exact (Hnone c Hc).
  - destruct (execute_run_events P self w key Hkey) as [evs [Ht [_ Hm]]].
    exists evs. split; [exact Ht|].
    destruct (merged evs) as [|c cs]; [reflexivity|].
    inversion Hm as [|? ? Hc _]; subst. exfalso. exact (Hnone c Hc).
Qed.

Lemma X8_unusable_key_writes_nothing_witness :
  (forall tok, decrypt_str Demo.platform None tok = Raise TypeError)
  /\ connection_table
       (snd (execute Demo.platform Demo.op
               (mkWorld [Demo.empty_key_conn]
                        [("dag_config", Demo.with_stale)] [])))
     = [Demo.empty_key_conn]
  /\ exists evs,
       trace (snd (execute Demo.platform Demo.op
                     (mkWorld [Demo.empty_key_conn]
                              [("dag_config", Demo.with_stale)] [])))
       = ([] ++ EvGetConnection (Some "fernet_key")
               :: EvVariableGet "dag_config" :: evs)%list
       /\ merged evs = [].
Proof.
  apply (X8_unusable_key_writes_nothing Demo.platform Demo.op
           (mkWorld [Demo.empty_key_conn]
                    [("dag_config", Demo.with_stale)] [])
           Demo.empty_key_conn TypeError);
    reflexivity.
Defined.

(** ** More on [execute]: the table after a run that goes through *)

Lemma upsert_all_app cs1 cs2 t :
  upsert_all (cs1 ++ cs2) t = upsert_all cs2 (upsert_all cs1 t).
Proof. unfold upsert_all. apply fold_left_app. Qed.

Lemma merged_app e1 e2 : merged (e1 ++ e2) = (merged e1 ++ merged e2)%list.
Proof. unfold merged. apply flat_map_app. Qed.

(** A pass that goes through skipped, or decrypted and merged. *)
Lemma execute_body_ok P key cfg k w w' :
  execute_body P key cfg k w = (Ok tt, w') ->
  w' = w
  \/ exists tok c,
       trace w' = (trace w ++ [EvDecrypt (password key) tok; EvMerge c])%list
       /\ connection_table w' = upsert c (connection_table w).
Proof.
  destruct (execute_body_shape P key cfg k)
    as [H|[[e H]|[org [ty [tok [url [_ [_ [_ [_ [_ [_ H]]]]]]]]]]]];
    rewrite H; intros Hrun.
  - left. now inversion Hrun.
  - discriminate.
  - destruct (decrypt_str P (password key) tok) as [a|e]; [|discriminate].
    right. exists tok, (built_record P org ty url a).
    unfold merge_connection in Hrun. simpl in Hrun.
    destruct (session_commit P _ _); inversion Hrun; subst w'; simpl.
    split; [now rewrite <- app_assoc | reflexivity].
Qed.

Lemma for_each_ok_merged P key cfg ks w w' :
  for_each (execute_body P key cfg) ks w = (Ok tt, w') ->
  exists evs,
    trace w' = (trace w ++ evs)%list
    /\ connection_table w' = upsert_all (merged evs) (connection_table w).
Proof.
  revert w. induction ks as [|k ks IH]; intros w Hrun; simpl in Hrun.
  - inversion Hrun; subst w'. exists []. now rewrite app_nil_r.
  - unfold bind in Hrun.
    destruct (execute_body P key cfg k w) as [[[]|e] wk] eqn:Hk;
      [|discriminate].
    destruct (IH wk Hrun) as [evs [Ht Hc]].
    destruct (execute_body_ok P key cfg k w wk Hk) as [E|[tok [c [Htk Hck]]]].
    + subst wk. eauto.
    + exists ([EvDecrypt (password key) tok; EvMerge c] ++ evs)%list. split.
      * now rewrite Ht, Htk, <- app_assoc.
      * rewrite Hc, Hck. reflexivity.
Qed.

(** X9.  After a run that ends normally, the connection table is the
    table from before the run with the records of the run's merges
    upserted in the order the merges were made, which is the order of the
    keys of the variable: a later config replaces the row of an earlier one
    of the same [conn_id]. *)
Theorem X9_table_after_a_run P self w w' :
  execute P self w = (Ok tt, w') ->
  exists evs,
    trace w'
    = (trace w
         ++ EvGetConnection (fernet_key_conn_id self)
            :: EvVariableGet (config_variable_key self) :: evs)%list
    /\ connection_table w'
       = upsert_all (merged evs) (connection_table w).
Proof.
  unfold execute, bind, get_connection. intros Hrun.
  destruct (BaseHook_get_connection P (connection_table w)
              (fernet_key_conn_id self)) as [key|e]; [|discriminate].
  unfold Variable_get at 1 in Hrun.
  apply for_each_ok_merged in Hrun. destruct Hrun as [evs [Ht Hc]].
  exists evs. split.
  - rewrite Ht. simpl. now rewrite <- !app_assoc.
  - exact Hc.
Qed.

Lemma X9_table_after_a_run_witness :
  exists evs,
    trace (snd (execute Demo.platform Demo.op
                  (Demo.world_of Demo.twice_acme)))
    = (trace (Demo.world_of Demo.twice_acme)
         ++ EvGetConnection (Some "fernet_key")
            :: EvVariableGet "dag_config" :: evs)%list
    /\ connection_table
         (snd (execute Demo.platform Demo.op
                 (Demo.world_of Demo.twice_acme)))
       = upsert_all (merged evs)
           (connection_table (Demo.world_of Demo.twice_acme)).
Proof.
  apply (X9_table_after_a_run Demo.platform Demo.op
           (Demo.world_of Demo.twice_acme)).
  vm_compute. reflexivity.
Defined.

(** The run on two configs of one name keeps the row of the second. *)
Example twice_acme_run :
  connection_table
    (snd (execute Demo.platform Demo.op (Demo.world_of Demo.twice_acme)))
  = [Demo.key_conn;
     mkConnection "sf_acme" "http" "https://new.example" (Some "tok123")
                  extra_direct].
Proof. vm_compute. reflexivity. Qed.

(** The records a loop that goes through upserts do not depend on the
    world it starts from. *)
Lemma for_each_ok_uniform P key cfg ks :
  exists cs,
    forall w w',
      for_each (execute_body P key cfg) ks w = (Ok tt, w') ->
      connection_table w' = upsert_all cs (connection_table w).
Proof.
  induction ks as [|k ks [cs IH]].
  - exists []. intros w w' H. now inversion H.
  - destruct (execute_body_shape P key cfg k)
      as [H|[[e H]|[org [ty [tok [url [_ [_ [_ [_ [_ [_ H]]]]]]]]]]]].
    + exists cs. intros w w' Hrun. simpl in Hrun. unfold bind in Hrun.
      rewrite H in Hrun. now apply IH.
    + exists []. intros w w' Hrun. simpl in Hrun. unfold bind in Hrun.
      rewrite H in Hrun. discriminate.
    + destruct (decrypt_str P (password key) tok) as [a|e].
      * exists (built_record P org ty url a :: cs).
        intros w w' Hrun. simpl in Hrun. unfold bind in Hrun.
        rewrite H in Hrun.
        destruct (merge_connection P (built_record P org ty url a)
                    (log (EvDecrypt (password key) tok) w))
          as [[[]|e] wk] eqn:Hm; [|discriminate].
        apply merge_connection_ok in Hm. simpl in Hm.
        rewrite (IH wk w' Hrun), Hm. reflexivity.
      * exists []. intros w w' Hrun. simpl in Hrun. unfold bind in Hrun.
        rewrite H in Hrun. discriminate.
Qed.

Lemma filter_twice {A} (p : A -> bool) l :
  filter p (filter p l) = filter p l.
Proof.
  induction l as [|x l IH]; simpl; [reflexivity|].
  destruct (p x) eqn:E; simpl; [rewrite E|]; now rewrite IH.
Qed.

Lemma filter_none {A} (p : A -> bool) l :
  (forall x, In x l -> p x = false) -> filter p l = [].
Proof.
  induction l as [|x l IH]; intros H; simpl; [reflexivity|].
  rewrite (H x (or_introl eq_refl)). apply IH. intros y Hy. apply H.
  now right.
Qed.

Lemma keep_upsert c cs t :
  filter (fun r => negb (named_in cs r)) (upsert c t)
  = (filter (fun r => negb (named_in (c :: cs) r)) t
       ++ filter (fun r => negb (named_in cs r)) [c])%list.
Proof.
  unfold upsert. rewrite filter_app. f_equal.
  unfold delete_where. induction t as [|r t IH]; simpl; [reflexivity|].
  rewrite (String.eqb_sym (conn_id c) (conn_id r)).
  destruct (conn_id r =? conn_id c); simpl; [exact IH|].
  destruct (named_in cs r); simpl; [exact IH | now rewrite IH].
Qed.

Lemma upsert_all_split cs t :
  upsert_all cs t
  = (filter (fun r => negb (named_in cs r)) t ++ upsert_all cs [])%list.
Proof.
  revert t. induction cs as [|c cs IH]; intros t.
  - simpl. rewrite app_nil_r. induction t as [|r t IHt]; simpl;
      [reflexivity | now rewrite <- IHt].
  - change (upsert_all (c :: cs) t) with (upsert_all cs (upsert c t)).
    change (upsert_all (c :: cs) []) with (upsert_all cs (upsert c [])).
    rewrite (IH (upsert c t)), (IH (upsert c [])), keep_upsert.
    change (upsert c []) with [c]. now rewrite <- app_assoc.
Qed.

Lemma upsert_all_In cs t r :
  In r (upsert_all cs t) -> In r t \/ In r cs.
Proof.
  revert t. induction cs as [|c cs IH]; intros t H; [now left|].
  change (upsert_all (c :: cs) t) with (upsert_all cs (upsert c t)) in H.
  destruct (IH _ H) as [Hu|Hc]; [|right; now right].
  unfold upsert in Hu. apply in_app_or in Hu. destruct Hu as [Hu|[E|[]]].
  - left. unfold delete_where in Hu. now apply filter_In in Hu.
  - right. now left.
Qed.

Lemma In_named_in cs r : In r cs -> named_in cs r = true.
Proof.
  intros H. unfold named_in. apply existsb_exists. exists r.
  split; [exact H | apply String.eqb_refl].
Qed.

(** Upserting the same records over again changes nothing. *)
Lemma upsert_all_twice cs t :
  upsert_all cs (upsert_all cs t) = upsert_all cs t.
Proof.
  rewrite (upsert_all_split cs (upsert_all cs t)).
  rewrite (upsert_all_split cs t) at 1.
  rewrite filter_app, filter_twice.
  rewrite (filter_none _ (upsert_all cs [])).
  - rewrite app_nil_r. symmetry. apply upsert_all_split.
  - intros r Hr. destruct (upsert_all_In cs [] r Hr) as [[]|Hc].
    now rewrite (In_named_in cs r Hc).
Qed.

(** X10.  Running the operator again is idempotent on the connection
    table: when two runs in a row both end normally and their key
    connections have the same password, the second leaves the connection
    table exactly as the first left it (same rows, same order). *)
Theorem X10_second_run_changes_nothing P self w w1 w2 key key' :
  BaseHook_get_connection P (connection_table w) (fernet_key_conn_id self)
  = Ok key ->
  BaseHook_get_connection P (connection_table w1) (fernet_key_conn_id self)
  = Ok key' ->
  password key = password key' ->
  execute P self w = (Ok tt, w1) ->
  execute P self w1 = (Ok tt, w2) ->
  connection_table w2 = connection_table w1.
Proof.
  intros Hk Hk' Hpw H1 H2.
  assert (Hv : variable_table w1 = variable_table w).
  { pose proof (execute_trace_variables P self w) as E.
    now rewrite H1 in E. }
  unfold execute, bind, get_connection in H1, H2.
  rewrite Hk in H1. rewrite Hk' in H2.
  unfold Variable_get at 1 in H1. unfold Variable_get at 1 in H2.
  simpl in H1, H2. rewrite Hv in H2.
  rewrite (for_each_ext _ (execute_body P key
             match find (fun kv => fst kv =? config_variable_key self)
                        (variable_table w) with
             | Some kv => snd kv
             | None => []
             end)) in H2.
  2:{ intros k w0. symmetry. now apply execute_body_password. }
  match type of H1 with
  | for_each (execute_body P key ?cfg) ?ks _ = _ =>
      destruct (for_each_ok_uniform P key cfg ks) as [cs Hcs]
  end.
  rewrite (Hcs _ _ H2). simpl. rewrite (Hcs _ _ H1). simpl.
  apply upsert_all_twice.
Qed.

Lemma X10_second_run_changes_nothing_witness :
  connection_table
    (snd (execute Demo.platform Demo.op
            (snd (execute Demo.platform Demo.op
                    (Demo.world_with_foreign Demo.twice_acme)))))
  = connection_table
      (snd (execute Demo.platform Demo.op
              (Demo.world_with_foreign Demo.twice_acme))).
Proof.
  apply (X10_second_run_changes_nothing Demo.platform Demo.op
           (Demo.world_with_foreign Demo.twice_acme)
           (snd (execute Demo.platform Demo.op
                   (Demo.world_with_foreign Demo.twice_acme)))
           (snd (execute Demo.platform Demo.op
                   (snd (execute Demo.platform Demo.op
                           (Demo.world_with_foreign Demo.twice_acme)))))
           Demo.key_conn Demo.key_conn);
    vm_compute; reflexivity.
Defined.

(** ** More on the [conn_id] *)

(** X11.  The [conn_id] of the record built for an accepted config tells
    its type and the printed form of its organisation apart from those of
    any other: two records have the same [conn_id] exactly when their
    configs have the same type and organisations that [format] prints
    alike.  So configs with different string organisations, or of
    different types, never share a row, while an organisation that is not
    a string shares its row with the string of its printed form (a missing
    one, printed [None], with the string [None]). *)
Theorem X11_conn_id_tells_type_and_organization P org1 org2 ty1 ty2
        url1 url2 a1 a2 :
  In ty1 _enabled_types ->
  In ty2 _enabled_types ->
  (conn_id (built_record P org1 ty1 url1 a1)
   = conn_id (built_record P org2 ty2 url2 a2)
   <-> ty1 = ty2
       /\ py_str P (dict_get org1 "organization" VNone)
          = py_str P (dict_get org2 "organization" VNone))
  /\ (forall o1 o2,
        dict_get org1 "organization" VNone = VStr o1 ->
        dict_get org2 "organization" VNone = VStr o2 ->
        (conn_id (built_record P org1 ty1 url1 a1)
         = conn_id (built_record P org2 ty2 url2 a2)
         <-> ty1 = ty2 /\ o1 = o2)).
Proof.
  intros H1 H2.
  assert (Hiff : conn_id (built_record P org1 ty1 url1 a1)
                 = conn_id (built_record P org2 ty2 url2 a2)
                 <-> ty1 = ty2
                     /\ py_str P (dict_get org1 "organization" VNone)
                        = py_str P (dict_get org2 "organization" VNone)).
  { unfold built_record. simpl.
    generalize (py_str P (dict_get org1 "organization" VNone)) as x1.
    generalize (py_str P (dict_get org2 "organization" VNone)) as x2.
    intros x2 x1.
    destruct (conn_prefix_and_url_cases ty1 url1 H1)
      as [[E1 R1]|[[E1 R1]|[E1 R1]]];
      destruct (conn_prefix_and_url_cases ty2 url2 H2)
        as [[E2 R2]|[[E2 R2]|[E2 R2]]];
      rewrite R1, R2; subst ty1 ty2; simpl;
      (split;
       [ intros E; inversion E; (split; reflexivity)
       | intros [E Ho]; try discriminate E; now rewrite Ho ]). }
  split; [exact Hiff|].
  intros o1 o2 Ho1 Ho2. rewrite Hiff, Ho1, Ho2. simpl. reflexivity.
Qed.

Lemma X11_conn_id_tells_type_and_organization_witness :
  conn_id (built_record Demo.platform Demo.anonymous_fields "SALESFORCE"
             "https://a.example" "t")
  = conn_id (built_record Demo.platform
               (Demo.fields (VBool true) (VStr "None") (VStr "SALESFORCE")
                            (VStr "K:t") (VStr "https://b.example"))
               "SALESFORCE" "https://b.example" "t").
Proof.
  apply (proj1 (X11_conn_id_tells_type_and_organization Demo.platform
                  Demo.anonymous_fields
                  (Demo.fields (VBool true) (VStr "None")
                               (VStr "SALESFORCE") (VStr "K:t")
                               (VStr "https://b.example"))
                  "SALESFORCE" "SALESFORCE"
                  "https://a.example" "https://b.example" "t" "t"
                  (or_intror (or_intror (or_introl eq_refl)))
                  (or_intror (or_intror (or_introl eq_refl))))).
  split; reflexivity.
Defined.
